(** * Rolling-window day counter (japan_days_counter.py)

    A shallow embedding of [days_in_rolling_window] and of the part of
    [main] / [create_visualization] that derives the remaining allowance,
    together with the fragment of Python's [datetime] module that the
    program relies on; then of [load_trips] on the rows of the file and
    of the dates that [create_visualization] lays its timeline out
    with. *)

From Stdlib Require Import ZArith List Bool Lia Permutation.
From Stdlib Require String Ascii.
Import ListNotations.
Open Scope Z_scope.

(** ** Exceptions and fallible computations *)

(** The only exceptions the modelled code can raise come from [datetime]:
    [ValueError] from the [date] constructor and [OverflowError] from date
    arithmetic that leaves the supported range. *)
Inductive exn : Type :=
| ValueError
| OverflowError.

Inductive result (A : Type) : Type :=
| Ok (a : A)
| Raise (e : exn).

Arguments Ok {A} a.
Arguments Raise {A} e.

Definition bind {A B : Type} (c : result A) (k : A -> result B) : result B :=
  match c with
  | Ok a => k a
  | Raise e => Raise e
  end.

Notation "x <- c ;; k" := (bind c (fun x => k))
  (at level 61, c at next level, right associativity).

Definition raises {A : Type} (c : result A) : Prop := exists e, c = Raise e.

(** ** The [datetime] fragment *)

Module Datetime.

Definition MINYEAR : Z := 1.
Definition MAXYEAR : Z := 9999.

(** [_MAXORDINAL], the ordinal of 9999-12-31. *)
Definition MAXORDINAL : Z := 3652059.

Definition is_leap (year : Z) : bool :=
  (year mod 4 =? 0) && (negb (year mod 100 =? 0) || (year mod 400 =? 0)).

Definition days_before_year (year : Z) : Z :=
  let y := year - 1 in
  y * 365 + y / 4 - y / 100 + y / 400.

(** [_DAYS_IN_MONTH], indexed from 1; index 0 holds the placeholder -1. *)
Definition DAYS_IN_MONTH : list Z :=
  [-1; 31; 28; 31; 30; 31; 30; 31; 31; 30; 31; 30; 31].

(** [_DAYS_BEFORE_MONTH], the running sums of [_DAYS_IN_MONTH]. *)
Definition DAYS_BEFORE_MONTH : list Z :=
  [-1; 0; 31; 59; 90; 120; 151; 181; 212; 243; 273; 304; 334].

Definition index (table : list Z) (i : Z) : Z := nth (Z.to_nat i) table 0.

Definition days_in_month (year month : Z) : Z :=
  if (month =? 2) && is_leap year then 29 else index DAYS_IN_MONTH month.

Definition days_before_month (year month : Z) : Z :=
  index DAYS_BEFORE_MONTH month
  + (if (2 <? month) && is_leap year then 1 else 0).

Definition ymd2ord (year month day : Z) : Z :=
  days_before_year year + days_before_month year month + day.

Definition DI400Y : Z := days_before_year 401.
Definition DI100Y : Z := days_before_year 101.
Definition DI4Y : Z := days_before_year 5.

(** [_ord2ymd]: the (year, month, day) of a proleptic Gregorian ordinal. *)
Definition ord2ymd (n : Z) : Z * Z * Z :=
  let n := n - 1 in
  let n400 := n / DI400Y in
  let n := n mod DI400Y in
  let year := n400 * 400 + 1 in
  let n100 := n / DI100Y in
  let n := n mod DI100Y in
  let n4 := n / DI4Y in
  let n := n mod DI4Y in
  let n1 := n / 365 in
  let n := n mod 365 in
  let year := year + (n100 * 100 + n4 * 4 + n1) in
  if (n1 =? 4) || (n100 =? 4) then (year - 1, 12, 31)
  else
    let leapyear := (n1 =? 3) && (negb (n4 =? 24) || (n100 =? 3)) in
    let month := Z.shiftr (n + 50) 5 in
    let preceding :=
      index DAYS_BEFORE_MONTH month
      + (if (2 <? month) && leapyear then 1 else 0) in
    if n <? preceding then
      let month := month - 1 in
      let preceding :=
        preceding
        - (index DAYS_IN_MONTH month
           + (if (month =? 2) && leapyear then 1 else 0)) in
      (year, month, n - preceding + 1)
    else (year, month, n - preceding + 1).

(** A [date] is identified by its proleptic Gregorian ordinal (what
    [date.toordinal()] returns, 0001-01-01 being day 1): ordering,
    [max]/[min] and subtraction of dates are all functions of it. *)
Record date : Type := Date { toordinal : Z }.

(** A [timedelta], of which the program only uses whole days. *)
Record timedelta : Type := Timedelta { days : Z }.

(** The dates Python can represent: 0001-01-01 .. 9999-12-31. *)
Definition valid_date (d : date) : Prop := 1 <= toordinal d <= MAXORDINAL.

(** [_check_date_fields]. *)
Definition check_date_fields (year month day : Z) : bool :=
  (MINYEAR <=? year) && (year <=? MAXYEAR)
  && (1 <=? month) && (month <=? 12)
  && (1 <=? day) && (day <=? days_in_month year month).

(** [date(year, month, day)]. *)
Definition date_new (year month day : Z) : result date :=
  if check_date_fields year month day
  then Ok (Date (ymd2ord year month day))
  else Raise ValueError.

(** The date written [year-month-day], for fields that pass
    [check_date_fields]. *)
Definition ymd (year month day : Z) : date := Date (ymd2ord year month day).

(** [date.year, date.month, date.day]. *)
Definition fields (d : date) : Z * Z * Z := ord2ymd (toordinal d).

(** [a < b], [a > b] and [a <= b] on dates. *)
Definition date_lt (a b : date) : bool := toordinal a <? toordinal b.
Definition date_gt (a b : date) : bool := toordinal b <? toordinal a.
Definition date_le (a b : date) : bool := toordinal a <=? toordinal b.

(** The builtins [max(a, b)] and [min(a, b)]: the first argument is kept
    unless the second is strictly larger (resp. smaller). *)
Definition max_date (a b : date) : date := if date_gt b a then b else a.
Definition min_date (a b : date) : date := if date_lt b a then b else a.

(** [a - b] for two dates. *)
Definition date_diff (a b : date) : timedelta :=
  Timedelta (toordinal a - toordinal b).

(** [d - delta] for a date and a timedelta: [date.__sub__] negates the
    days and defers to [date.__add__], which raises [OverflowError] when
    the ordinal leaves [1 .. _MAXORDINAL]. *)
Definition date_add_timedelta (d : date) (delta : timedelta) : result date :=
  let o := toordinal d + days delta in
  if (0 <? o) && (o <=? MAXORDINAL) then Ok (Date o)
  else Raise OverflowError.

Definition date_sub_timedelta (d : date) (delta : timedelta) : result date :=
  date_add_timedelta d (Timedelta (- days delta)).

End Datetime.

Import Datetime.

(** ** The program *)

(** [MAX_DAYS = 180]: maximum allowed days per 365-day window. *)
Definition MAX_DAYS : Z := 180.

(** A trip is the tuple [(entry, exit)] that [load_trips] builds. *)
Definition trip : Type := (date * date)%type.

Definition entry_of (t : trip) : date := fst t.
Definition exit_of (t : trip) : date := snd t.

(** One iteration of the [for entry, exit in trips] loop of
    [days_in_rolling_window], as a function of the running [days_count]. *)
Definition loop_body (start_window reference_date : date)
    (days_count : Z) (t : trip) : Z :=
  let '(entry, exit) := t in
  if date_lt exit start_window || date_gt entry reference_date
  then days_count
  else
    let overlap_start := max_date entry start_window in
    let overlap_end := min_date exit reference_date in
    days_count + (days (date_diff overlap_end overlap_start) + 1).

(** [days_in_rolling_window(trips, reference_date=None)].  [today] stands
    for the value of [datetime.today().date()] at the time of the call. *)
Definition days_in_rolling_window (today : date) (trips : list trip)
    (reference_date : option date) : result (Z * date) :=
  let reference_date :=
    match reference_date with
    | None => today
    | Some d => d
    end in
  start_window <- date_sub_timedelta reference_date (Timedelta 365) ;;
  let days_count := fold_left (loop_body start_window reference_date) trips 0 in
  Ok (days_count, start_window).

(** The figures [main] prints: [days_used], [days_remaining] and the start
    of the window, for the trips that [load_trips] returned. *)
Record report : Type := Report {
  report_days_used : Z;
  report_days_remaining : Z;
  report_window_start : date
}.

Definition main (today : date) (trips : list trip) : result report :=
  r <- days_in_rolling_window today trips None ;;
  let '(days_used, start_window) := r in
  let days_remaining := MAX_DAYS - days_used in
  Ok (Report days_used days_remaining start_window).

(** The figures in the summary text of [create_visualization]:
    [days_used], the window start and [MAX_DAYS - days_used]. *)
Definition create_visualization_summary (today : date) (trips : list trip)
    (reference_date : option date) : result report :=
  let reference_date :=
    match reference_date with
    | None => today
    | Some d => d
    end in
  r <- days_in_rolling_window today trips (Some reference_date) ;;
  let '(days_used, past_window_start) := r in
  Ok (Report days_used (MAX_DAYS - days_used) past_window_start).

(** ** Specification-side definitions *)

(** The reference date a call works with: the argument, or [today]. *)
Definition effective_reference (today : date) (reference_date : option date)
    : date :=
  match reference_date with
  | None => today
  | Some d => d
  end.

(** Reference dates whose window start is itself a date Python can
    represent: valid dates from 0002-01-01 (ordinal 366) on. *)
Definition in_range (reference_date : date) : Prop :=
  365 < toordinal reference_date <= MAXORDINAL.

(** The invariant of a stay interval: entry is not after exit. *)
Definition well_formed (t : trip) : Prop :=
  toordinal (entry_of t) <= toordinal (exit_of t).

Definition reversed (t : trip) : Prop :=
  toordinal (exit_of t) < toordinal (entry_of t).

(** [window_start = reference_date - 365 days], as the specification
    words it. *)
Definition spec_window_start (reference_date : date) : date :=
  Date (toordinal reference_date - 365).

(** The contribution of one interval, as the specification words it:
    0 when the interval lies outside the window, and otherwise
    [(min(exit, reference_date) - max(entry, window_start)).days + 1]. *)
Definition spec_contribution (window_start reference_date : date) (t : trip)
    : Z :=
  let entry := toordinal (entry_of t) in
  let exit := toordinal (exit_of t) in
  if (exit <? toordinal window_start) || (toordinal reference_date <? entry)
  then 0
  else
    Z.min exit (toordinal reference_date)
    - Z.max entry (toordinal window_start) + 1.

Definition sum_Z (l : list Z) : Z := fold_right Z.add 0 l.

Definition spec_days_used (trips : list trip) (reference_date : date) : Z :=
  sum_Z (map (spec_contribution (spec_window_start reference_date)
                reference_date) trips).

(** The calendar days of the window [window_start .. reference_date],
    both ends included, as ordinals. *)
Definition day_range (first : Z) (count : nat) : list Z :=
  map (fun k => first + Z.of_nat k) (seq 0 count).

Definition window_days (window_start reference_date : date) : list Z :=
  day_range (toordinal window_start)
    (Z.to_nat (toordinal reference_date - toordinal window_start + 1)).

(** Whether the stay [t] includes the calendar day [day]. *)
Definition covers (t : trip) (day : Z) : bool :=
  (toordinal (entry_of t) <=? day) && (day <=? toordinal (exit_of t)).

(** How many of the intervals include [day]. *)
Definition coverage (trips : list trip) (day : Z) : Z :=
  Z.of_nat (length (filter (fun t => covers t day) trips)).

(** The concrete scenario of the specification: the reference date
    2024-01-01 and the three stays it is evaluated on. *)
Definition scenario_reference : date := ymd 2024 1 1.

Definition stay_inside : trip := (ymd 2023 6 1, ymd 2023 6 30).
Definition stay_before : trip := (ymd 2022 1 1, ymd 2022 1 10).
Definition stay_straddling : trip := (ymd 2022 12 20, ymd 2023 1 10).

(** The reversed pair of the specification's invalid-input example. *)
Definition stay_reversed : trip := (ymd 2023 5 10, ymd 2023 5 1).

(** Discharges [in_range] and comparisons of concrete dates. *)
Ltac concrete_range :=
  unfold in_range; vm_compute; split; [reflexivity | discriminate].

Ltac concrete_le := vm_compute; discriminate.

(** ** The timeline of [create_visualization] *)

(** [a >= b] on dates. *)
Definition date_ge (a b : date) : bool := toordinal b <=? toordinal a.

(** The builtins [min(iterable)] and [max(iterable)]: the first element is
    kept until a strictly smaller (resp. larger) one comes; an empty
    sequence raises [ValueError]. *)
Definition min_of (dates : list date) : result date :=
  match dates with
  | [] => Raise ValueError
  | first :: rest => Ok (fold_left min_date rest first)
  end.

Definition max_of (dates : list date) : result date :=
  match dates with
  | [] => Raise ValueError
  | first :: rest => Ok (fold_left max_date rest first)
  end.

(** [all_dates = [trip[0] for trip in trips] + [trip[1] for trip in trips]]. *)
Definition all_dates (trips : list trip) : list date :=
  map fst trips ++ map snd trips.

(** What [create_visualization] computes up to [date_range]: the summary
    figures, then [earliest_date], [latest_date] and [date_range].  The
    calls into the plotting library in between are taken not to raise. *)
Definition create_visualization_extent (today : date) (trips : list trip)
    (reference_date : option date) : result (report * (date * date * Z)) :=
  let reference_date :=
    match reference_date with
    | None => today
    | Some d => d
    end in
  r <- days_in_rolling_window today trips (Some reference_date) ;;
  let '(days_used, past_window_start) := r in
  let summary := Report days_used (MAX_DAYS - days_used) past_window_start in
  lowest <- min_of (all_dates trips) ;;
  let earliest_date := min_date lowest past_window_start in
  highest <- max_of (all_dates trips) ;;
  let latest_date := max_date highest reference_date in
  let date_range := days (date_diff latest_date earliest_date) in
  Ok (summary, (earliest_date, latest_date, date_range)).

(** The interval of the [DayLocator]: [max(1, date_range // 10)]. *)
Definition tick_interval (date_range : Z) : Z :=
  let tenth := date_range / 10 in
  if 1 <? tenth then tenth else 1.

(** [trip_duration = (exit_date - entry).days + 1], the length of the bar. *)
Definition trip_duration (t : trip) : Z :=
  let '(entry, exit_date) := t in
  days (date_diff exit_date entry) + 1.

Inductive color : Type :=
| darkgreen
| orange.

(** The colour of the bar of a trip. *)
Definition bar_color (past_window_start reference_date : date) (t : trip)
    : color :=
  let '(entry, exit_date) := t in
  if date_ge entry past_window_start && date_le exit_date reference_date
  then darkgreen
  else orange.

(** [mid_date = entry + timedelta(days=trip_duration // 2)], where the
    label of a trip is anchored. *)
Definition mid_date (t : trip) : result date :=
  let '(entry, exit_date) := t in
  date_add_timedelta entry (Timedelta (trip_duration t / 2)).

(** ** Further specification-side definitions *)

(** Two stays that share no calendar day. *)
Definition non_overlapping (a b : trip) : Prop :=
  toordinal (exit_of a) < toordinal (entry_of b)
  \/ toordinal (exit_of b) < toordinal (entry_of a).

(** Whether the traveller was present on [day] according to [trips]. *)
Definition present (trips : list trip) (day : Z) : bool :=
  existsb (fun t => covers t day) trips.

(** Whether a stay has at least one day in the window. *)
Definition overlaps_window (window_start reference_date : date) (t : trip)
    : bool :=
  negb (date_lt (exit_of t) window_start || date_gt (entry_of t) reference_date).

(** [a < b] the way [date.__lt__] decides it, on the fields
    (year, month, day) compared as tuples. *)
Definition fields_lt (a b : Z * Z * Z) : bool :=
  let '(y1, m1, d1) := a in
  let '(y2, m2, d2) := b in
  (y1 <? y2) || ((y1 =? y2) && ((m1 <? m2) || ((m1 =? m2) && (d1 <? d2)))).

Definition valid_trip (t : trip) : Prop :=
  valid_date (entry_of t) /\ valid_date (exit_of t).

(** ** Reading the trips *)

(** The part of [_strptime] that [load_trips] exercises: the regular
    expression that the format ["%Y-%m-%d"] compiles to, matched the way
    Python's backtracking matcher does, then the conversion of the groups
    to integers and the construction of the date.  Texts are strings of
    characters with code points below 256, among which the only decimal
    digits are ['0'] .. ['9']. *)
Module Strptime.

Import Ascii String.

Inductive regex : Type :=
| Lit (c : ascii)                 (* the character [c] *)
| Digit                           (* [\d] *)
| Range (lo hi : ascii)           (* [[lo-hi]] *)
| Seq (r1 r2 : regex)             (* [r1 r2] *)
| Alt (r1 r2 : regex)             (* [r1|r2], [r1] tried first *)
| Group (name : ascii) (r : regex). (* [(?P<name>r)] *)

Definition code (c : ascii) : Z := Z.of_N (N_of_ascii c).

Definition between (lo hi c : ascii) : bool :=
  (code lo <=? code c) && (code c <=? code hi).

Definition is_digit (c : ascii) : bool := between "0" "9" c.

Definition captures : Type := list (ascii * string).

(** The text of [s] consumed when [rest] is what remains of it. *)
Definition consumed (s rest : string) : string :=
  substring 0 (String.length s - String.length rest) s.

(** Backtracking match of [r] at the start of [s]; [k] continues with the
    remaining text and the groups captured so far.  The first way of
    matching that [k] accepts wins, alternatives being tried in order. *)
Fixpoint run {R : Type} (r : regex) (s : string) (caps : captures)
    (k : string -> captures -> option R) : option R :=
  match r with
  | Lit c =>
      match s with
      | String a rest => if Ascii.eqb a c then k rest caps else None
      | EmptyString => None
      end
  | Digit =>
      match s with
      | String a rest => if is_digit a then k rest caps else None
      | EmptyString => None
      end
  | Range lo hi =>
      match s with
      | String a rest => if between lo hi a then k rest caps else None
      | EmptyString => None
      end
  | Seq r1 r2 => run r1 s caps (fun s1 caps1 => run r2 s1 caps1 k)
  | Alt r1 r2 =>
      match run r1 s caps k with
      | Some x => Some x
      | None => run r2 s caps k
      end
  | Group name r1 =>
      run r1 s caps (fun s1 caps1 => k s1 ((name, consumed s s1) :: caps1))
  end.

(** [regex.match(s)]: the groups and the text left after the match. *)
Definition regex_match (r : regex) (s : string) : option (string * captures) :=
  run r s [] (fun rest caps => Some (rest, caps)).

(** ['Y': (?P<Y>\d\d\d\d)] *)
Definition directive_Y : regex :=
  Group "Y" (Seq Digit (Seq Digit (Seq Digit Digit))).

(** ['m': (?P<m>1[0-2]|0[1-9]|[1-9])] *)
Definition directive_m : regex :=
  Group "m"
    (Alt (Seq (Lit "1") (Range "0" "2"))
       (Alt (Seq (Lit "0") (Range "1" "9"))
          (Range "1" "9"))).

(** ['d': (?P<d>3[0-1]|[1-2]\d|0[1-9]|[1-9]| [1-9])] *)
Definition directive_d : regex :=
  Group "d"
    (Alt (Seq (Lit "3") (Range "0" "1"))
       (Alt (Seq (Range "1" "2") Digit)
          (Alt (Seq (Lit "0") (Range "1" "9"))
             (Alt (Range "1" "9")
                (Seq (Lit " ") (Range "1" "9")))))).

(** The pattern of the format ["%Y-%m-%d"], the year first and then
    [-%m-%d]. *)
Definition month_day_regex : regex :=
  Seq (Lit "-") (Seq directive_m (Seq (Lit "-") directive_d)).

Definition format_regex : regex := Seq directive_Y month_day_regex.

(** [found_dict[name]]. *)
Fixpoint group (name : ascii) (caps : captures) : string :=
  match caps with
  | [] => EmptyString
  | (n, text) :: rest => if Ascii.eqb n name then text else group name rest
  end.

(** [int(text)] for a text made of one optional leading space and
    decimal digits, which is all a group of [format_regex] can hold. *)
Fixpoint int_digits (text : string) (acc : Z) : Z :=
  match text with
  | EmptyString => acc
  | String c rest => int_digits rest (acc * 10 + (code c - code "0"))
  end.

Definition int (text : string) : Z :=
  match text with
  | String c rest =>
      if Ascii.eqb c " " then int_digits rest 0 else int_digits text 0
  | EmptyString => 0
  end.

(** [datetime.strptime(data_string, "%Y-%m-%d").date()]. *)
Definition strptime (data_string : string) : result date :=
  match regex_match format_regex data_string with
  | None => Raise ValueError    (* does not match format *)
  | Some (rest, found_dict) =>
      match rest with
      | String _ _ => Raise ValueError    (* unconverted data remains *)
      | EmptyString =>
          date_new (int (group "Y" found_dict))
            (int (group "m" found_dict))
            (int (group "d" found_dict))
      end
  end.

(** [date.isoformat()]: the text [YYYY-MM-DD] of a date given by its
    fields. *)
Definition digit_char (n : Z) : ascii := ascii_of_N (Z.to_N (48 + n mod 10)).

Definition two_digits (n : Z) : string :=
  String (digit_char (n / 10)) (String (digit_char n) EmptyString).

Definition four_digits (n : Z) : string :=
  String (digit_char (n / 1000))
    (String (digit_char (n / 100))
       (String (digit_char (n / 10)) (String (digit_char n) EmptyString))).

Definition month_day_text (month day : Z) : string :=
  ("-" ++ two_digits month ++ "-" ++ two_digits day)%string.

Definition isoformat (year month day : Z) : string :=
  (four_digits year ++ month_day_text month day)%string.

End Strptime.

Module Loader.

Import Ascii String.

(** The two columns [load_trips] reads. *)
Definition column_entry : string := "entry".
Definition column_exit : string := "exit".

(** A row as [csv.DictReader] yields it: a dict from column names to
    cells, a cell missing at the end of a short line being [None]. *)
Definition row : Type := list (String.string * option String.string).

(** What [load_trips] can raise while it reads the rows. *)
Inductive load_exn : Type :=
| KeyError (key : String.string)
| TypeError
| Builtin (e : exn).

Inductive loaded (A : Type) : Type :=
| Loaded (a : A)
| Failed (e : load_exn).

Arguments Loaded {A} a.
Arguments Failed {A} e.

(** [row[key]]. *)
Fixpoint getitem (r : row) (key : String.string)
    : loaded (option String.string) :=
  match r with
  | [] => Failed (KeyError key)
  | (k, cell) :: rest =>
      if String.eqb k key then Loaded cell else getitem rest key
  end.

(** [datetime.strptime(row[key], "%Y-%m-%d").date()]. *)
Definition read_date (r : row) (key : String.string) : loaded date :=
  match getitem r key with
  | Failed e => Failed e
  | Loaded None => Failed TypeError
  | Loaded (Some text) =>
      match Strptime.strptime text with
      | Ok d => Loaded d
      | Raise e => Failed (Builtin e)
      end
  end.

(** The body of the loop of [load_trips]. *)
Definition load_row (r : row) : loaded trip :=
  match read_date r column_entry with
  | Failed e => Failed e
  | Loaded entry =>
      match read_date r column_exit with
      | Failed e => Failed e
      | Loaded exit => Loaded (entry, exit)
      end
  end.

(** The loop of [load_trips], [trips] being the list built so far. *)
Fixpoint load_loop (rows : list row) (trips : list trip)
    : loaded (list trip) :=
  match rows with
  | [] => Loaded trips
  | r :: rest =>
      match load_row r with
      | Failed e => Failed e
      | Loaded t => load_loop rest (trips ++ [t])
      end
  end.

(** [load_trips(csv_file)], given the rows the reader yields. *)
Definition load_trips (rows : list row) : loaded (list trip) :=
  load_loop rows [].

(** The row that holds a stay written as ISO dates. *)
Definition iso_row (entry exit : Z * Z * Z) : row :=
  let '(ey, em, ed) := entry in
  let '(xy, xm, xd) := exit in
  [(column_entry, Some (Strptime.isoformat ey em ed));
   (column_exit, Some (Strptime.isoformat xy xm xd))].

(** A stay written down as the fields of its two dates, and the trip it
    stands for. *)
Definition written_stay : Type := ((Z * Z * Z) * (Z * Z * Z))%type.

Definition fields_ok (f : Z * Z * Z) : bool :=
  let '(year, month, day) := f in check_date_fields year month day.

Definition date_of_fields (f : Z * Z * Z) : date :=
  let '(year, month, day) := f in ymd year month day.

Definition stay_ok (w : written_stay) : Prop :=
  fields_ok (fst w) = true /\ fields_ok (snd w) = true.

Definition trip_of (w : written_stay) : trip :=
  (date_of_fields (fst w), date_of_fields (snd w)).

Definition row_of (w : written_stay) : row := iso_row (fst w) (snd w).

(** What it takes for [load_trips] to turn the row [r] into the stay
    [t]: both columns are there, both cells hold a text, and the texts
    parse to the entry and the exit of [t]. *)
Definition row_holds (r : row) (t : trip) : Prop :=
  exists entry_text exit_text,
    getitem r column_entry = Loaded (Some entry_text)
    /\ getitem r column_exit = Loaded (Some exit_text)
    /\ Strptime.strptime entry_text = Ok (entry_of t)
    /\ Strptime.strptime exit_text = Ok (exit_of t).

(** [main], from the rows of the file to the last figures computed
    before drawing: [today] is the date at the call of the counter and
    [today_again] the one [main] reads next and hands to
    [create_visualization]. *)
Definition program (today today_again : date) (rows : list row)
    : loaded (report * (date * date * Z)) :=
  match load_trips rows with
  | Failed e => Failed e
  | Loaded trips =>
      match main today trips with
      | Raise e => Failed (Builtin e)
      | Ok printed =>
          match create_visualization_extent today_again trips
                  (Some today_again) with
          | Raise e => Failed (Builtin e)
          | Ok (_, extent) => Loaded (printed, extent)
          end
      end
  end.

End Loader.

Import Loader.

(** ** Dates and the window *)

Lemma date_eq (a b : date) : toordinal a = toordinal b -> a = b.
Proof. destruct a, b; simpl; congruence. Qed.

Lemma max_date_ordinal (a b : date) :
  toordinal (max_date a b) = Z.max (toordinal a) (toordinal b).
Proof.
  unfold max_date, date_gt.
  destruct (Z.ltb_spec (toordinal a) (toordinal b)); lia.
Qed.

Lemma min_date_ordinal (a b : date) :
  toordinal (min_date a b) = Z.min (toordinal a) (toordinal b).
Proof.
  unfold min_date, date_lt.
  destruct (Z.ltb_spec (toordinal b) (toordinal a)); lia.
Qed.

Lemma window_start_ok (reference_date : date) :
  in_range reference_date ->
  date_sub_timedelta reference_date (Timedelta 365)
  = Ok (spec_window_start reference_date).
Proof.
  unfold in_range, date_sub_timedelta, date_add_timedelta, spec_window_start.
  cbn [days]. intros [Hlo Hhi].
  replace (toordinal reference_date + - (365)) with
    (toordinal reference_date - 365) by lia.
  destruct (Z.ltb_spec 0 (toordinal reference_date - 365)); [|lia].
  destruct (Z.leb_spec (toordinal reference_date - 365) MAXORDINAL);
    [reflexivity|lia].
Qed.

Lemma window_start_overflow (reference_date : date) :
  toordinal reference_date <= 365 ->
  date_sub_timedelta reference_date (Timedelta 365) = Raise OverflowError.
Proof.
  unfold date_sub_timedelta, date_add_timedelta. cbn [days]. intros H.
  destruct (Z.ltb_spec 0 (toordinal reference_date + - (365)));
    [lia|reflexivity].
Qed.

Lemma window_start_valid (reference_date : date) :
  in_range reference_date -> valid_date (spec_window_start reference_date).
Proof. unfold in_range, valid_date, spec_window_start; simpl; lia. Qed.

(** ** The loop *)

Lemma loop_body_spec (ws ref : date) (acc : Z) (t : trip) :
  loop_body ws ref acc t = acc + spec_contribution ws ref t.
Proof.
  destruct t as [entry exit].
  unfold loop_body, spec_contribution, date_lt, date_gt, date_diff,
    entry_of, exit_of.
  cbn [fst snd days].
  destruct (_ || _); [lia|].
  rewrite min_date_ordinal, max_date_ordinal. lia.
Qed.

Lemma loop_spec (ws ref : date) (trips : list trip) (acc : Z) :
  fold_left (loop_body ws ref) trips acc
  = acc + sum_Z (map (spec_contribution ws ref) trips).
Proof.
  revert acc. induction trips as [|t trips IH]; intros acc; simpl.
  - lia.
  - rewrite IH, loop_body_spec. lia.
Qed.

Lemma counter_spec (today : date) (trips : list trip) (ref : date) :
  in_range ref ->
  days_in_rolling_window today trips (Some ref)
  = Ok (spec_days_used trips ref, spec_window_start ref).
Proof.
  intros Hr. unfold days_in_rolling_window.
  rewrite (window_start_ok ref Hr). cbn [bind].
  rewrite loop_spec. reflexivity.
Qed.

Lemma counter_default (today : date) (trips : list trip) :
  days_in_rolling_window today trips None
  = days_in_rolling_window today trips (Some today).
Proof. reflexivity. Qed.

Lemma counter_effective (today : date) (trips : list trip)
    (reference_date : option date) :
  days_in_rolling_window today trips reference_date
  = days_in_rolling_window today trips
      (Some (effective_reference today reference_date)).
Proof. destruct reference_date; reflexivity. Qed.

(** Before 0002-01-01 the window start is not a date: the subtraction
    raises before any interval is looked at. *)
Lemma counter_overflow (today : date) (trips : list trip) (ref : date) :
  toordinal ref <= 365 ->
  days_in_rolling_window today trips (Some ref) = Raise OverflowError.
Proof.
  intros H. unfold days_in_rolling_window.
  rewrite (window_start_overflow ref H). reflexivity.
Qed.

(** ** Sums of contributions *)

Lemma sum_Z_app (l1 l2 : list Z) : sum_Z (l1 ++ l2) = sum_Z l1 + sum_Z l2.
Proof. induction l1 as [|x l1 IH]; simpl; lia. Qed.

Lemma sum_Z_perm (l1 l2 : list Z) :
  Permutation l1 l2 -> sum_Z l1 = sum_Z l2.
Proof. induction 1; simpl; lia. Qed.

Lemma sum_Z_nonneg (l : list Z) : Forall (fun x => 0 <= x) l -> 0 <= sum_Z l.
Proof. induction 1; simpl; lia. Qed.

Lemma spec_days_used_app (a b : list trip) (ref : date) :
  spec_days_used (a ++ b) ref = spec_days_used a ref + spec_days_used b ref.
Proof. unfold spec_days_used. rewrite map_app. apply sum_Z_app. Qed.

Lemma spec_days_used_perm (a b : list trip) (ref : date) :
  Permutation a b -> spec_days_used a ref = spec_days_used b ref.
Proof.
  intros H. unfold spec_days_used. apply sum_Z_perm, Permutation_map, H.
Qed.

(** A well-formed interval that is not skipped overlaps the window in at
    least one day. *)
Lemma spec_contribution_nonneg (ws ref : date) (t : trip) :
  toordinal ws <= toordinal ref -> well_formed t ->
  0 <= spec_contribution ws ref t.
Proof.
  unfold well_formed, spec_contribution. intros Hw Ht.
  destruct (Z.ltb_spec (toordinal (exit_of t)) (toordinal ws));
    destruct (Z.ltb_spec (toordinal ref) (toordinal (entry_of t)));
    cbn [orb]; lia.
Qed.

(** A reversed interval that is not skipped has [exit] as the end and
    [entry] as the start of its overlap. *)
Lemma spec_contribution_reversed (ws ref : date) (t : trip) :
  reversed t ->
  spec_contribution ws ref t
  = if (toordinal (exit_of t) <? toordinal ws)
       || (toordinal ref <? toordinal (entry_of t))
    then 0
    else toordinal (exit_of t) - toordinal (entry_of t) + 1.
Proof.
  unfold reversed, spec_contribution. intros Ht.
  destruct (Z.ltb_spec (toordinal (exit_of t)) (toordinal ws));
    destruct (Z.ltb_spec (toordinal ref) (toordinal (entry_of t)));
    cbn [orb]; lia.
Qed.

(** ** Counting the days of the window *)

Lemma day_range_succ (first : Z) (n : nat) :
  day_range first (S n) = day_range first n ++ [first + Z.of_nat n].
Proof. unfold day_range. rewrite seq_S, map_app. reflexivity. Qed.

Lemma count_in_day_range (first : Z) (n : nat) (a b : Z) :
  Z.of_nat (length (filter (fun x => (a <=? x) && (x <=? b))
                      (day_range first n)))
  = Z.max 0 (Z.min b (first + Z.of_nat n - 1) - Z.max a first + 1).
Proof.
  induction n as [|n IH].
  - simpl. lia.
  - rewrite day_range_succ, filter_app, length_app, Nat2Z.inj_add, IH.
    cbn [filter].
    destruct (Z.leb_spec a (first + Z.of_nat n));
      destruct (Z.leb_spec (first + Z.of_nat n) b);
      cbn [andb length]; lia.
Qed.

Lemma covered_days (ws ref : date) (t : trip) :
  toordinal ws <= toordinal ref -> well_formed t ->
  spec_contribution ws ref t
  = Z.of_nat (length (filter (covers t) (window_days ws ref))).
Proof.
  intros Hw Ht. unfold window_days, covers.
  rewrite count_in_day_range, Z2Nat.id by lia.
  unfold well_formed in Ht. unfold spec_contribution.
  destruct (Z.ltb_spec (toordinal (exit_of t)) (toordinal ws));
    destruct (Z.ltb_spec (toordinal ref) (toordinal (entry_of t)));
    cbn [orb]; lia.
Qed.

Lemma coverage_cons (t : trip) (trips : list trip) (day : Z) :
  coverage (t :: trips) day
  = (if covers t day then 1 else 0) + coverage trips day.
Proof.
  unfold coverage. cbn [filter]. destruct (covers t day); cbn [length]; lia.
Qed.

Lemma count_as_sum (p : Z -> bool) (l : list Z) :
  sum_Z (map (fun x => if p x then 1 else 0) l)
  = Z.of_nat (length (filter p l)).
Proof.
  induction l as [|x l IH]; simpl; [reflexivity|].
  destruct (p x); cbn [length]; lia.
Qed.

Lemma sum_Z_map_add (f g : Z -> Z) (l : list Z) :
  sum_Z (map (fun x => f x + g x) l) = sum_Z (map f l) + sum_Z (map g l).
Proof. induction l as [|x l IH]; simpl; lia. Qed.

(** Counting per interval and counting per day give the same total. *)
Lemma coverage_total (trips : list trip) (days : list Z) :
  sum_Z (map (coverage trips) days)
  = sum_Z (map (fun t => Z.of_nat (length (filter (covers t) days))) trips).
Proof.
  induction trips as [|t trips IH].
  - simpl. induction days as [|d days IHd]; simpl; [reflexivity|].
    rewrite IHd. reflexivity.
  - cbn [map sum_Z fold_right]. fold (sum_Z (map
      (fun t0 => Z.of_nat (length (filter (covers t0) days))) trips)).
    rewrite <- IH, <- count_as_sum, <- sum_Z_map_add.
    f_equal. apply map_ext. intros day. apply coverage_cons.
Qed.

Lemma spec_days_used_coverage (trips : list trip) (ref : date) :
  Forall well_formed trips ->
  spec_days_used trips ref
  = sum_Z (map (coverage trips) (window_days (spec_window_start ref) ref)).
Proof.
  intros Hwf. rewrite coverage_total. unfold spec_days_used. f_equal.
  apply map_ext_in. intros t Hin. apply covered_days.
  - unfold spec_window_start; simpl; lia.
  - rewrite Forall_forall in Hwf. apply Hwf, Hin.
Qed.

(** ** The counter against its specification *)

(** C1: for every list of well-formed intervals and every reference date
    (from 0002-01-01 on, so that the window start is a date), the counter
    returns as [days_used] the sum over the intervals of 0 when
    [exit < window_start] or [entry > reference_date], and of
    [(min(exit, reference_date) - max(entry, window_start)).days + 1]
    otherwise, with [window_start = reference_date - 365 days]. *)
Theorem days_used_is_sum_of_overlaps
    (today : date) (trips : list trip) (reference_date : date) :
  in_range reference_date ->
  Forall well_formed trips ->
  days_in_rolling_window today trips (Some reference_date)
  = Ok (sum_Z (map (spec_contribution (spec_window_start reference_date)
                      reference_date) trips),
        spec_window_start reference_date).
Proof.
  intros Hr _. exact (counter_spec today trips reference_date Hr).
Qed.

Lemma days_used_is_sum_of_overlaps_witness :
  in_range scenario_reference
  /\ Forall well_formed [stay_inside; stay_before; stay_straddling]
  /\ days_in_rolling_window scenario_reference
       [stay_inside; stay_before; stay_straddling] (Some scenario_reference)
     = Ok (sum_Z (map (spec_contribution
                         (spec_window_start scenario_reference)
                         scenario_reference)
                    [stay_inside; stay_before; stay_straddling]),
           spec_window_start scenario_reference).
Proof.
  assert (Hr : in_range scenario_reference) by concrete_range.
  assert (Hw : Forall well_formed [stay_inside; stay_before; stay_straddling])
    by (repeat constructor; concrete_le).
  split; [exact Hr | split; [exact Hw |]].
  exact (days_used_is_sum_of_overlaps scenario_reference _ _ Hr Hw).
Defined.

(** C4: on the empty list the counter returns [days_used = 0] and
    [window_start = reference_date - 365 days]; and on every input
    (reference date given or defaulted to today, from 0002-01-01 on) the
    returned window start lies exactly 365 calendar days before the
    reference date, whatever the lengths of the years involved. *)
Theorem window_start_is_365_days_back
    (today : date) (reference_date : option date) :
  in_range (effective_reference today reference_date) ->
  days_in_rolling_window today [] reference_date
  = Ok (0, spec_window_start (effective_reference today reference_date))
  /\ forall trips : list trip,
       exists days_used window_start,
         days_in_rolling_window today trips reference_date
         = Ok (days_used, window_start)
         /\ days (date_diff (effective_reference today reference_date)
                    window_start) = 365
         /\ valid_date window_start.
Proof.
  intros Hr. rewrite counter_effective. split.
  - rewrite (counter_spec _ _ _ Hr). reflexivity.
  - intros trips. rewrite counter_effective, (counter_spec _ _ _ Hr).
    eexists; eexists; split; [reflexivity|]. split.
    + unfold date_diff, spec_window_start; simpl; lia.
    + apply window_start_valid, Hr.
Qed.

(** A leap year does not lengthen the window: from 2024-12-31 it starts
    on 2024-01-01, and from 2024-01-01 on 2023-01-01. *)
Lemma window_start_is_365_days_back_witness :
  in_range (effective_reference (ymd 2024 12 31) None)
  /\ days_in_rolling_window (ymd 2024 12 31) [] None
     = Ok (0, ymd 2024 1 1)
  /\ days_in_rolling_window (ymd 2020 1 1) [] (Some scenario_reference)
     = Ok (0, ymd 2023 1 1).
Proof.
  assert (Hr : in_range (effective_reference (ymd 2024 12 31) None))
    by concrete_range.
  assert (Hs : in_range (effective_reference (ymd 2020 1 1)
                           (Some scenario_reference))) by concrete_range.
  split; [exact Hr | split].
  - exact (proj1 (window_start_is_365_days_back (ymd 2024 12 31) None Hr)).
  - exact (proj1 (window_start_is_365_days_back (ymd 2020 1 1)
                    (Some scenario_reference) Hs)).
Defined.

(** C5: permuting a list of well-formed intervals does not change
    [days_used]. *)
Theorem days_used_order_independent
    (today : date) (trips permuted : list trip) (reference_date : date) :
  in_range reference_date ->
  Forall well_formed trips ->
  Permutation trips permuted ->
  exists days_used window_start,
    days_in_rolling_window today trips (Some reference_date)
    = Ok (days_used, window_start)
    /\ days_in_rolling_window today permuted (Some reference_date)
       = Ok (days_used, window_start).
Proof.
  intros Hr _ Hp. rewrite !(counter_spec _ _ _ Hr).
  rewrite (spec_days_used_perm _ _ reference_date Hp).
  eexists; eexists; split; reflexivity.
Qed.

Lemma days_used_order_independent_witness :
  in_range scenario_reference
  /\ Forall well_formed [stay_inside; stay_before; stay_straddling]
  /\ Permutation [stay_inside; stay_before; stay_straddling]
       [stay_straddling; stay_inside; stay_before]
  /\ exists days_used window_start,
       days_in_rolling_window scenario_reference
         [stay_inside; stay_before; stay_straddling] (Some scenario_reference)
       = Ok (days_used, window_start)
       /\ days_in_rolling_window scenario_reference
            [stay_straddling; stay_inside; stay_before]
            (Some scenario_reference)
          = Ok (days_used, window_start).
Proof.
  assert (Hr : in_range scenario_reference) by concrete_range.
  assert (Hw : Forall well_formed [stay_inside; stay_before; stay_straddling])
    by (repeat constructor; concrete_le).
  assert (Hp : Permutation [stay_inside; stay_before; stay_straddling]
                 [stay_straddling; stay_inside; stay_before]).
  { apply Permutation_sym.
    apply (Permutation_cons_app [stay_inside; stay_before] []).
    apply Permutation_refl. }
  split; [exact Hr | split; [exact Hw | split; [exact Hp |]]].
  exact (days_used_order_independent scenario_reference _ _ _ Hr Hw Hp).
Defined.

(** C6: a single well-formed interval that ends on the window start
    counts 1 day, one that begins on the reference date counts 1 day, and
    a one-day interval inside the window counts 1 day. *)
Theorem boundary_dates_count_one_day (today reference_date : date) :
  in_range reference_date ->
  (forall entry : date,
      toordinal entry <= toordinal (spec_window_start reference_date) ->
      days_in_rolling_window today
        [(entry, spec_window_start reference_date)] (Some reference_date)
      = Ok (1, spec_window_start reference_date))
  /\ (forall exit : date,
         toordinal reference_date <= toordinal exit ->
         days_in_rolling_window today
           [(reference_date, exit)] (Some reference_date)
         = Ok (1, spec_window_start reference_date))
  /\ (forall day : date,
         toordinal (spec_window_start reference_date) <= toordinal day ->
         toordinal day <= toordinal reference_date ->
         days_in_rolling_window today [(day, day)] (Some reference_date)
         = Ok (1, spec_window_start reference_date)).
Proof.
  intros Hr.
  assert (Hone : forall t : trip,
             spec_contribution (spec_window_start reference_date)
               reference_date t = 1 ->
             days_in_rolling_window today [t] (Some reference_date)
             = Ok (1, spec_window_start reference_date)).
  { intros t Ht. rewrite (counter_spec _ _ _ Hr).
    unfold spec_days_used. cbn [map sum_Z fold_right]. rewrite Ht.
    reflexivity. }
  repeat split; intros d; intros; apply Hone;
    unfold spec_contribution, entry_of, exit_of, spec_window_start in *;
    cbn [fst snd toordinal] in *.
  - destruct (Z.ltb_spec (toordinal reference_date - 365)
                (toordinal reference_date - 365));
      destruct (Z.ltb_spec (toordinal reference_date) (toordinal d));
      cbn [orb]; lia.
  - destruct (Z.ltb_spec (toordinal d) (toordinal reference_date - 365));
      destruct (Z.ltb_spec (toordinal reference_date)
                  (toordinal reference_date));
      cbn [orb]; lia.
  - destruct (Z.ltb_spec (toordinal d) (toordinal reference_date - 365));
      destruct (Z.ltb_spec (toordinal reference_date) (toordinal d));
      cbn [orb]; lia.
Qed.

Lemma boundary_dates_count_one_day_witness :
  in_range scenario_reference
  /\ days_in_rolling_window scenario_reference
       [(ymd 2022 12 20, spec_window_start scenario_reference)]
       (Some scenario_reference)
     = Ok (1, spec_window_start scenario_reference)
  /\ days_in_rolling_window scenario_reference
       [(scenario_reference, ymd 2024 3 15)] (Some scenario_reference)
     = Ok (1, spec_window_start scenario_reference)
  /\ days_in_rolling_window scenario_reference
       [(ymd 2023 6 1, ymd 2023 6 1)] (Some scenario_reference)
     = Ok (1, spec_window_start scenario_reference).
Proof.
  assert (Hr : in_range scenario_reference) by concrete_range.
  destruct (boundary_dates_count_one_day scenario_reference
              scenario_reference Hr) as [Hstart [Hend Hday]].
  split; [exact Hr | split; [| split]].
  - apply Hstart. concrete_le.
  - apply Hend. concrete_le.
  - apply Hday; concrete_le.
Defined.

(** C7: the counter is additive over concatenation of lists of
    well-formed intervals; hence a day of the window is counted once for
    every interval that includes it: [days_used] is the sum, over the
    days of the window, of the number of intervals covering that day. *)
Theorem days_used_additive
    (today : date) (a b : list trip) (reference_date : date) :
  in_range reference_date ->
  Forall well_formed a ->
  Forall well_formed b ->
  exists days_a days_b window_start,
    days_in_rolling_window today a (Some reference_date)
    = Ok (days_a, window_start)
    /\ days_in_rolling_window today b (Some reference_date)
       = Ok (days_b, window_start)
    /\ days_in_rolling_window today (a ++ b) (Some reference_date)
       = Ok (days_a + days_b, window_start)
    /\ days_a + days_b
       = sum_Z (map (coverage (a ++ b))
                  (window_days window_start reference_date)).
Proof.
  intros Hr Ha Hb. rewrite !(counter_spec _ _ _ Hr).
  exists (spec_days_used a reference_date),
    (spec_days_used b reference_date), (spec_window_start reference_date).
  repeat split.
  - rewrite spec_days_used_app. reflexivity.
  - rewrite <- spec_days_used_app. apply spec_days_used_coverage.
    apply Forall_app. split; assumption.
Qed.

(** Two stays sharing 2023-06-01 .. 2023-06-30: the thirty shared days
    are counted twice. *)
Lemma days_used_additive_witness :
  in_range scenario_reference
  /\ Forall well_formed [stay_inside]
  /\ Forall well_formed [(ymd 2023 5 20, ymd 2023 7 4)]
  /\ exists days_a days_b window_start,
       days_in_rolling_window scenario_reference [stay_inside]
         (Some scenario_reference) = Ok (days_a, window_start)
       /\ days_in_rolling_window scenario_reference
            [(ymd 2023 5 20, ymd 2023 7 4)] (Some scenario_reference)
          = Ok (days_b, window_start)
       /\ days_in_rolling_window scenario_reference
            ([stay_inside] ++ [(ymd 2023 5 20, ymd 2023 7 4)])
            (Some scenario_reference)
          = Ok (days_a + days_b, window_start)
       /\ days_a + days_b
          = sum_Z (map (coverage
                          ([stay_inside] ++ [(ymd 2023 5 20, ymd 2023 7 4)]))
                     (window_days window_start scenario_reference)).
Proof.
  assert (Hr : in_range scenario_reference) by concrete_range.
  assert (Ha : Forall well_formed [stay_inside])
    by (repeat constructor; concrete_le).
  assert (Hb : Forall well_formed [(ymd 2023 5 20, ymd 2023 7 4)])
    by (repeat constructor; concrete_le).
  split; [exact Hr | split; [exact Ha | split; [exact Hb |]]].
  exact (days_used_additive scenario_reference _ _ _ Hr Ha Hb).
Defined.

(** C9: on well-formed intervals the counter returns a [days_used] that
    is at least 0. *)
Theorem days_used_nonnegative
    (today : date) (trips : list trip) (reference_date : date) :
  in_range reference_date ->
  Forall well_formed trips ->
  exists days_used window_start,
    days_in_rolling_window today trips (Some reference_date)
    = Ok (days_used, window_start)
    /\ 0 <= days_used.
Proof.
  intros Hr Hwf. rewrite (counter_spec _ _ _ Hr).
  eexists; eexists; split; [reflexivity|].
  unfold spec_days_used. apply sum_Z_nonneg, Forall_map.
  revert Hwf. apply Forall_impl. intros t Ht.
  apply spec_contribution_nonneg; [|exact Ht].
  unfold spec_window_start; simpl; lia.
Qed.

Lemma days_used_nonnegative_witness :
  in_range scenario_reference
  /\ Forall well_formed [stay_inside; stay_before; stay_straddling]
  /\ exists days_used window_start,
       days_in_rolling_window scenario_reference
         [stay_inside; stay_before; stay_straddling] (Some scenario_reference)
       = Ok (days_used, window_start)
       /\ 0 <= days_used.
Proof.
  assert (Hr : in_range scenario_reference) by concrete_range.
  assert (Hw : Forall well_formed [stay_inside; stay_before; stay_straddling])
    by (repeat constructor; concrete_le).
  split; [exact Hr | split; [exact Hw |]].
  exact (days_used_nonnegative scenario_reference _ _ Hr Hw).
Defined.

(** ** Reversed intervals *)

Lemma counter_remove (today : date) (before after : list trip) (t : trip)
    (ref : date) :
  in_range ref ->
  days_in_rolling_window today (before ++ t :: after) (Some ref)
  = Ok (spec_days_used (before ++ after) ref
        + spec_contribution (spec_window_start ref) ref t,
        spec_window_start ref).
Proof.
  intros Hr. rewrite (counter_spec _ _ _ Hr).
  rewrite !spec_days_used_app. unfold spec_days_used at 2.
  cbn [map sum_Z fold_right].
  fold (sum_Z (map (spec_contribution (spec_window_start ref) ref) after)).
  fold (spec_days_used after ref). do 2 f_equal. lia.
Qed.

Lemma code_contribution (ws ref : date) (t : trip) :
  spec_contribution ws ref t
  = if date_lt (exit_of t) ws || date_gt (entry_of t) ref then 0
    else days (date_diff (min_date (exit_of t) ref)
                 (max_date (entry_of t) ws)) + 1.
Proof.
  rewrite <- (Z.add_0_l (spec_contribution ws ref t)), <- loop_body_spec.
  destruct t as [entry exit]. reflexivity.
Qed.

(** C10: no list of date pairs makes the counter raise, reversed pairs
    included: whether a call raises does not depend on the list, and for
    reference dates from 0002-01-01 on it returns a result.  In that
    result a reversed pair lying outside the window adds 0, and one that
    is not skipped adds [(overlap_end - overlap_start).days + 1], which is
    [(exit - entry).days + 1] and so at most 0. *)
Theorem counter_accepts_any_pairs
    (today : date) (trips : list trip) (reference_date : date) :
  in_range reference_date ->
  (raises (days_in_rolling_window today trips (Some reference_date))
   <-> raises (days_in_rolling_window today [] (Some reference_date)))
  /\ exists days_used,
       days_in_rolling_window today trips (Some reference_date)
       = Ok (days_used, spec_window_start reference_date)
       /\ forall (before after : list trip) (t : trip),
            trips = before ++ t :: after ->
            reversed t ->
            exists others,
              days_in_rolling_window today (before ++ after)
                (Some reference_date)
              = Ok (others, spec_window_start reference_date)
              /\ days_used - others
                 = (if date_lt (exit_of t) (spec_window_start reference_date)
                       || date_gt (entry_of t) reference_date
                    then 0
                    else days (date_diff
                                 (min_date (exit_of t) reference_date)
                                 (max_date (entry_of t)
                                    (spec_window_start reference_date)))
                         + 1)
              /\ days_used - others <= 0.
Proof.
  intros Hr. split.
  - rewrite !(counter_spec _ _ _ Hr).
    split; intros [e He]; discriminate He.
  - exists (spec_days_used trips reference_date).
    split; [apply counter_spec, Hr|].
    intros before after t -> Hrev.
    exists (spec_days_used (before ++ after) reference_date).
    split; [apply counter_spec, Hr|].
    assert (Hsum : spec_days_used (before ++ t :: after) reference_date
                   - spec_days_used (before ++ after) reference_date
                   = spec_contribution (spec_window_start reference_date)
                       reference_date t).
    { pose proof (counter_remove today before after t reference_date Hr)
        as Hrem.
      rewrite (counter_spec _ _ _ Hr) in Hrem. inversion Hrem. lia. }
    rewrite Hsum. split; [apply code_contribution|].
    rewrite (spec_contribution_reversed _ _ _ Hrev).
    unfold reversed in Hrev. destruct (_ || _); lia.
Qed.

Lemma counter_accepts_any_pairs_witness :
  in_range scenario_reference
  /\ reversed stay_reversed
  /\ exists days_used others,
       days_in_rolling_window scenario_reference
         [stay_inside; stay_reversed] (Some scenario_reference)
       = Ok (days_used, spec_window_start scenario_reference)
       /\ days_in_rolling_window scenario_reference ([stay_inside] ++ [])
            (Some scenario_reference)
          = Ok (others, spec_window_start scenario_reference)
       /\ days_used - others <= 0.
Proof.
  assert (Hr : in_range scenario_reference) by concrete_range.
  assert (Hv : reversed stay_reversed) by (vm_compute; reflexivity).
  destruct (counter_accepts_any_pairs scenario_reference
              [stay_inside; stay_reversed] scenario_reference Hr)
    as [_ [days_used [Hall Hsplit]]].
  destruct (Hsplit [stay_inside] [] stay_reversed eq_refl Hv)
    as [others [Hothers [_ Hle]]].
  split; [exact Hr | split; [exact Hv |]].
  exists days_used, others.
  split; [exact Hall | split; [exact Hothers | exact Hle]].
Defined.

(** C2, as the code has it: a list containing a reversed interval is not
    rejected.  For reference dates from 0002-01-01 on the counter returns
    the sum of the contributions of all intervals, a reversed one adding 0
    when it is skipped and [(exit - entry).days + 1] otherwise; the single
    interval (2023-05-10, 2023-05-01) gives [days_used = -8] for reference
    dates 2023-05-10 .. 2024-04-30 and 0 for the others. *)
Theorem reversed_interval_is_counted
    (today : date) (trips : list trip) (reference_date : date) :
  in_range reference_date ->
  Exists reversed trips ->
  ~ raises (days_in_rolling_window today trips (Some reference_date))
  /\ days_in_rolling_window today trips (Some reference_date)
     = Ok (sum_Z (map (spec_contribution (spec_window_start reference_date)
                         reference_date) trips),
           spec_window_start reference_date)
  /\ (forall t : trip,
         In t trips -> reversed t ->
         spec_contribution (spec_window_start reference_date)
           reference_date t
         = if date_lt (exit_of t) (spec_window_start reference_date)
              || date_gt (entry_of t) reference_date
           then 0
           else days (date_diff (exit_of t) (entry_of t)) + 1)
  /\ days_in_rolling_window today [stay_reversed] (Some reference_date)
     = Ok ((if date_le (ymd 2023 5 10) reference_date
               && date_le reference_date (ymd 2024 4 30)
            then -8 else 0),
           spec_window_start reference_date).
Proof.
  intros Hr _. rewrite !(counter_spec _ _ _ Hr). repeat split.
  - intros [e He]. discriminate He.
  - intros t _ Hrev. apply spec_contribution_reversed, Hrev.
  - do 2 f_equal. unfold spec_days_used. cbn [map sum_Z fold_right].
    rewrite spec_contribution_reversed by (vm_compute; reflexivity).
    unfold date_le, spec_window_start, stay_reversed, exit_of, entry_of.
    cbn [fst snd toordinal].
    change (toordinal (ymd 2023 5 10)) with 738650.
    change (toordinal (ymd 2023 5 1)) with 738641.
    change (toordinal (ymd 2024 4 30)) with 739006.
    destruct (Z.ltb_spec 738641 (toordinal reference_date - 365));
      destruct (Z.ltb_spec (toordinal reference_date) 738650);
      destruct (Z.leb_spec 738650 (toordinal reference_date));
      destruct (Z.leb_spec (toordinal reference_date) 739006);
      cbn [orb andb]; lia.
Qed.

Lemma reversed_interval_is_counted_witness :
  in_range scenario_reference
  /\ Exists reversed [stay_inside; stay_reversed]
  /\ days_in_rolling_window scenario_reference [stay_inside; stay_reversed]
       (Some scenario_reference)
     = Ok (sum_Z (map (spec_contribution
                         (spec_window_start scenario_reference)
                         scenario_reference)
                    [stay_inside; stay_reversed]),
           spec_window_start scenario_reference).
Proof.
  assert (Hr : in_range scenario_reference) by concrete_range.
  assert (He : Exists reversed [stay_inside; stay_reversed]).
  { apply Exists_cons_tl, Exists_cons_hd. vm_compute. reflexivity. }
  split; [exact Hr | split; [exact He |]].
  exact (proj1 (proj2 (reversed_interval_is_counted scenario_reference
                         _ _ Hr He))).
Defined.

(** C2, as stated, fails: the reversed interval (2023-05-10, 2023-05-01)
    evaluated on 2024-01-01 raises nothing and yields [days_used = -8]. *)
Lemma reversed_stay_is_not_rejected :
  reversed stay_reversed
  /\ ~ raises (days_in_rolling_window scenario_reference [stay_reversed]
                 (Some scenario_reference))
  /\ days_in_rolling_window scenario_reference [stay_reversed]
       (Some scenario_reference)
     = Ok (-8, ymd 2023 1 1).
Proof.
  split; [vm_compute; reflexivity | split].
  - intros [e He]. vm_compute in He. discriminate He.
  - vm_compute. reflexivity.
Qed.

(** ** The scenario of 2024-01-01 *)

(** C3, as the code has it: with [reference_date] 2024-01-01 the counter
    returns the window start 2023-01-01; (2023-06-01, 2023-06-30) counts
    30 days, (2022-01-01, 2022-01-10) counts 0 days and
    (2022-12-20, 2023-01-10) counts the 10 days 2023-01-01 .. 2023-01-10;
    the three together count 40 days. *)
Theorem scenario_2024_01_01 (today : date) :
  date_new 2024 1 1 = Ok scenario_reference
  /\ date_new 2023 1 1 = Ok (ymd 2023 1 1)
  /\ fields (ymd 2023 1 1) = (2023, 1, 1)
  /\ days_in_rolling_window today [stay_inside] (Some scenario_reference)
     = Ok (30, ymd 2023 1 1)
  /\ days_in_rolling_window today [stay_before] (Some scenario_reference)
     = Ok (0, ymd 2023 1 1)
  /\ days_in_rolling_window today [stay_straddling] (Some scenario_reference)
     = Ok (10, ymd 2023 1 1)
  /\ max_date (entry_of stay_straddling) (ymd 2023 1 1) = ymd 2023 1 1
  /\ min_date (exit_of stay_straddling) scenario_reference = ymd 2023 1 10
  /\ days_in_rolling_window today [stay_inside; stay_before; stay_straddling]
       (Some scenario_reference)
     = Ok (40, ymd 2023 1 1).
Proof.
  repeat split; vm_compute; reflexivity.
Qed.

(** C3, as stated, fails: the window of 2024-01-01 does not start on
    2023-01-02, and (2022-12-20, 2023-01-10) does not count 9 days. *)
Lemma scenario_window_start_is_not_january_second :
  ~ (exists days_used,
        days_in_rolling_window scenario_reference [stay_straddling]
          (Some scenario_reference)
        = Ok (days_used, ymd 2023 1 2))
  /\ ~ (exists window_start,
           days_in_rolling_window scenario_reference [stay_straddling]
             (Some scenario_reference)
           = Ok (9, window_start)).
Proof.
  split; intros [x Hx]; vm_compute in Hx; discriminate Hx.
Qed.

(** ** The remaining allowance *)

Lemma whole_window_counts_366 (today : date) :
  in_range today ->
  days_in_rolling_window today [(spec_window_start today, today)] None
  = Ok (366, spec_window_start today).
Proof.
  intros Hr. rewrite counter_default, (counter_spec _ _ _ Hr).
  do 2 f_equal. unfold spec_days_used. cbn [map sum_Z fold_right].
  unfold spec_contribution, entry_of, exit_of, spec_window_start.
  cbn [fst snd toordinal].
  destruct (Z.ltb_spec (toordinal today) (toordinal today - 365));
    destruct (Z.ltb_spec (toordinal today) (toordinal today - 365));
    cbn [orb]; lia.
Qed.

(** C8: what [main] prints and what the summary of
    [create_visualization] shows as remaining days is [180 - days_used]
    for the [days_used] the counter returned, with no clamping: it is
    negative as soon as [days_used] exceeds 180, and such runs exist (a
    stay spanning the whole window leaves -186). *)
Theorem days_remaining_is_not_clamped (today : date) (trips : list trip) :
  in_range today ->
  (exists days_used window_start,
      days_in_rolling_window today trips None = Ok (days_used, window_start)
      /\ main today trips
         = Ok (Report days_used (180 - days_used) window_start)
      /\ create_visualization_summary today trips (Some today)
         = Ok (Report days_used (180 - days_used) window_start)
      /\ (180 < days_used ->
          forall r, main today trips = Ok r -> report_days_remaining r < 0))
  /\ main today [(spec_window_start today, today)]
     = Ok (Report 366 (-186) (spec_window_start today)).
Proof.
  intros Hr. split.
  - unfold main, create_visualization_summary, effective_reference.
    rewrite counter_default, (counter_spec _ _ _ Hr). cbn [bind].
    exists (spec_days_used trips today), (spec_window_start today).
    split; [reflexivity | split; [reflexivity | split; [reflexivity |]]].
    intros Hover r Hmain. injection Hmain as <-.
    change (MAX_DAYS - spec_days_used trips today < 0).
    unfold MAX_DAYS. lia.
  - unfold main. rewrite (whole_window_counts_366 today Hr). reflexivity.
Qed.

Lemma days_remaining_is_not_clamped_witness :
  in_range scenario_reference
  /\ main scenario_reference [(ymd 2023 1 1, ymd 2024 1 1)]
     = Ok (Report 366 (-186) (ymd 2023 1 1)).
Proof.
  assert (Hr : in_range scenario_reference) by concrete_range.
  split; [exact Hr |].
  exact (proj2 (days_remaining_is_not_clamped scenario_reference [] Hr)).
Defined.

(** ** Further properties of the counter *)

Lemma covered_elsewhere (t : trip) (trips : list trip) (day : Z) :
  Forall (non_overlapping t) trips -> covers t day = true ->
  coverage trips day = 0.
Proof.
  intros Hno Hc. unfold coverage.
  replace (filter (fun u => covers u day) trips) with (@nil trip);
    [reflexivity|].
  symmetry. induction Hno as [|u trips Hu _ IH]; [reflexivity|].
  cbn [filter]. rewrite IH.
  unfold covers in Hc |- *. unfold non_overlapping in Hu.
  apply andb_true_iff in Hc. destruct Hc as [H1 H2].
  apply Z.leb_le in H1, H2.
  destruct (Z.leb_spec (toordinal (entry_of u)) day);
    destruct (Z.leb_spec day (toordinal (exit_of u)));
    cbn [andb]; try reflexivity; lia.
Qed.

Lemma coverage_nonneg (trips : list trip) (day : Z) : 0 <= coverage trips day.
Proof. unfold coverage. lia. Qed.

Lemma coverage_of_separate_stays (trips : list trip) (day : Z) :
  ForallOrdPairs non_overlapping trips ->
  coverage trips day = if present trips day then 1 else 0.
Proof.
  induction 1 as [|t trips Ht _ IH]; [reflexivity|].
  rewrite coverage_cons. unfold present in *. cbn [existsb].
  destruct (covers t day) eqn:Hc; cbn [orb].
  - rewrite (covered_elsewhere t trips day Ht Hc). reflexivity.
  - rewrite IH. reflexivity.
Qed.

Lemma window_days_length (ref : date) :
  length (window_days (spec_window_start ref) ref) = 366%nat.
Proof.
  unfold window_days, day_range, spec_window_start. cbn [toordinal].
  rewrite length_map, length_seq.
  replace (toordinal ref - (toordinal ref - 365) + 1) with 366 by lia.
  reflexivity.
Qed.

Lemma filter_length_le {A : Type} (p : A -> bool) (l : list A) :
  (length (filter p l) <= length l)%nat.
Proof.
  induction l as [|x l IH]; cbn [filter length]; [lia|].
  destruct (p x); cbn [length]; lia.
Qed.

Lemma spec_days_used_present (trips : list trip) (ref : date) :
  Forall well_formed trips ->
  ForallOrdPairs non_overlapping trips ->
  spec_days_used trips ref
  = Z.of_nat (length (filter (present trips)
                        (window_days (spec_window_start ref) ref)))
  /\ spec_days_used trips ref <= 366.
Proof.
  intros Hwf Hsep.
  assert (Heq : spec_days_used trips ref
                = Z.of_nat (length (filter (present trips)
                    (window_days (spec_window_start ref) ref)))).
  { rewrite (spec_days_used_coverage _ _ Hwf), <- count_as_sum.
    f_equal. apply map_ext. intros day.
    apply coverage_of_separate_stays, Hsep. }
  split; [exact Heq|]. rewrite Heq.
  pose proof (filter_length_le (present trips)
                (window_days (spec_window_start ref) ref)) as Hle.
  rewrite window_days_length in Hle. lia.
Qed.

(** X1: when the stays are well formed and no two of them share a day,
    [days_used] is the number of days of the window on which the
    traveller was present, and so at most the 366 days of the window. *)
Theorem days_used_counts_days_present
    (today : date) (trips : list trip) (reference_date : date) :
  in_range reference_date ->
  Forall well_formed trips ->
  ForallOrdPairs non_overlapping trips ->
  exists days_used,
    days_in_rolling_window today trips (Some reference_date)
    = Ok (days_used, spec_window_start reference_date)
    /\ days_used
       = Z.of_nat (length (filter (present trips)
                             (window_days (spec_window_start reference_date)
                                reference_date)))
    /\ days_used <= 366.
Proof.
  intros Hr Hwf Hsep. rewrite (counter_spec _ _ _ Hr).
  eexists; split; [reflexivity|].
  exact (spec_days_used_present trips reference_date Hwf Hsep).
Qed.

Lemma days_used_counts_days_present_witness :
  in_range scenario_reference
  /\ Forall well_formed [stay_before; stay_straddling; stay_inside]
  /\ ForallOrdPairs non_overlapping [stay_before; stay_straddling; stay_inside]
  /\ exists days_used,
       days_in_rolling_window scenario_reference
         [stay_before; stay_straddling; stay_inside] (Some scenario_reference)
       = Ok (days_used, spec_window_start scenario_reference)
       /\ days_used
          = Z.of_nat (length (filter
                (present [stay_before; stay_straddling; stay_inside])
                (window_days (spec_window_start scenario_reference)
                   scenario_reference)))
       /\ days_used <= 366.
Proof.
  assert (Hr : in_range scenario_reference) by concrete_range.
  assert (Hw : Forall well_formed [stay_before; stay_straddling; stay_inside])
    by (repeat constructor; concrete_le).
  assert (Hs : ForallOrdPairs non_overlapping
                 [stay_before; stay_straddling; stay_inside]).
  { repeat constructor; left; vm_compute; reflexivity. }
  split; [exact Hr | split; [exact Hw | split; [exact Hs |]]].
  exact (days_used_counts_days_present scenario_reference _ _ Hr Hw Hs).
Defined.

Lemma trip_duration_ordinals (t : trip) :
  trip_duration t = toordinal (exit_of t) - toordinal (entry_of t) + 1.
Proof. destruct t as [entry exit_date]. reflexivity. Qed.

Lemma bar_color_darkgreen (ws ref : date) (t : trip) :
  bar_color ws ref t = darkgreen
  <-> toordinal ws <= toordinal (entry_of t)
      /\ toordinal (exit_of t) <= toordinal ref.
Proof.
  destruct t as [entry exit_date].
  unfold bar_color, date_ge, date_le, entry_of, exit_of. cbn [fst snd].
  destruct (Z.leb_spec (toordinal ws) (toordinal entry));
    destruct (Z.leb_spec (toordinal exit_date) (toordinal ref));
    cbn [andb]; split; intros H'; try discriminate; try reflexivity; lia.
Qed.

(** A well-formed stay never counts for more than its own length, nor
    for more than the 366 days of the window; it counts in full exactly
    when it lies inside the window. *)
Lemma spec_contribution_le (ref : date) (t : trip) :
  well_formed t ->
  spec_contribution (spec_window_start ref) ref t <= trip_duration t
  /\ spec_contribution (spec_window_start ref) ref t <= 366
  /\ (spec_contribution (spec_window_start ref) ref t = trip_duration t
      <-> bar_color (spec_window_start ref) ref t = darkgreen).
Proof.
  intros Hwf. rewrite bar_color_darkgreen, trip_duration_ordinals.
  unfold well_formed in Hwf. unfold spec_contribution, spec_window_start.
  cbn [toordinal].
  destruct (Z.ltb_spec (toordinal (exit_of t)) (toordinal ref - 365));
    destruct (Z.ltb_spec (toordinal ref) (toordinal (entry_of t)));
    cbn [orb]; lia.
Qed.

(** X2: on well-formed stays [days_used] is at most the total length of
    the bars drawn ([trip_duration]) and at most 366 days per stay; it
    equals the total length exactly when every bar is drawn dark green,
    that is when every stay lies inside the window. *)
Theorem days_used_against_bar_lengths
    (today : date) (trips : list trip) (reference_date : date) :
  in_range reference_date ->
  Forall well_formed trips ->
  exists days_used,
    days_in_rolling_window today trips (Some reference_date)
    = Ok (days_used, spec_window_start reference_date)
    /\ days_used <= sum_Z (map trip_duration trips)
    /\ days_used <= 366 * Z.of_nat (length trips)
    /\ (days_used = sum_Z (map trip_duration trips)
        <-> Forall (fun t => bar_color (spec_window_start reference_date)
                               reference_date t = darkgreen) trips).
Proof.
  intros Hr Hwf. rewrite (counter_spec _ _ _ Hr).
  eexists; split; [reflexivity|]. unfold spec_days_used.
  induction Hwf as [|t trips Ht _ IH].
  - cbn. repeat split; try lia. constructor.
  - destruct IH as [IH1 [IH2 IH3]].
    destruct (spec_contribution_le reference_date t Ht) as [H1 [H2 H3]].
    cbn [map sum_Z fold_right length].
    fold (sum_Z (map (spec_contribution (spec_window_start reference_date)
                        reference_date) trips)) in *.
    fold (sum_Z (map trip_duration trips)) in *.
    repeat split; try lia.
    + intros Heq. constructor; [apply H3 | apply IH3]; lia.
    + intros Hall. inversion Hall as [|? ? Hhd Htl]; subst.
      apply H3 in Hhd. apply IH3 in Htl. lia.
Qed.

Lemma days_used_against_bar_lengths_witness :
  in_range scenario_reference
  /\ Forall well_formed [stay_inside; stay_straddling]
  /\ exists days_used,
       days_in_rolling_window scenario_reference
         [stay_inside; stay_straddling] (Some scenario_reference)
       = Ok (days_used, spec_window_start scenario_reference)
       /\ days_used <= sum_Z (map trip_duration [stay_inside; stay_straddling])
       /\ days_used <= 366 * Z.of_nat (length [stay_inside; stay_straddling])
       /\ (days_used = sum_Z (map trip_duration [stay_inside; stay_straddling])
           <-> Forall (fun t => bar_color (spec_window_start scenario_reference)
                                  scenario_reference t = darkgreen)
                 [stay_inside; stay_straddling]).
Proof.
  assert (Hr : in_range scenario_reference) by concrete_range.
  assert (Hw : Forall well_formed [stay_inside; stay_straddling])
    by (repeat constructor; concrete_le).
  split; [exact Hr | split; [exact Hw |]].
  exact (days_used_against_bar_lengths scenario_reference _ _ Hr Hw).
Defined.

Lemma spec_contribution_outside (ws ref : date) (t : trip) :
  overlaps_window ws ref t = false -> spec_contribution ws ref t = 0.
Proof.
  rewrite code_contribution. unfold overlaps_window.
  destruct (_ || _); [reflexivity | discriminate].
Qed.

(** X3: stays that lie wholly outside the window can be removed from the
    list without changing what the counter returns, whether they are
    well formed or not. *)
Theorem stays_outside_window_are_ignored
    (today : date) (trips : list trip) (reference_date : date) :
  in_range reference_date ->
  days_in_rolling_window today trips (Some reference_date)
  = days_in_rolling_window today
      (filter (overlaps_window (spec_window_start reference_date)
                 reference_date) trips)
      (Some reference_date)
  /\ exists days_used,
       days_in_rolling_window today trips (Some reference_date)
       = Ok (days_used, spec_window_start reference_date).
Proof.
  intros Hr. rewrite !(counter_spec _ _ _ Hr). split; [|eauto].
  do 2 f_equal. unfold spec_days_used.
  induction trips as [|t trips IH]; [reflexivity|].
  cbn [map sum_Z fold_right filter].
  fold (sum_Z (map (spec_contribution (spec_window_start reference_date)
                      reference_date) trips)).
  destruct (overlaps_window (spec_window_start reference_date)
              reference_date t) eqn:Ho.
  - cbn [map sum_Z fold_right]. f_equal. exact IH.
  - rewrite (spec_contribution_outside _ _ _ Ho). exact IH.
Qed.

Lemma stays_outside_window_are_ignored_witness :
  in_range scenario_reference
  /\ days_in_rolling_window scenario_reference
       [stay_inside; stay_before; stay_straddling] (Some scenario_reference)
     = days_in_rolling_window scenario_reference
         [stay_inside; stay_straddling] (Some scenario_reference).
Proof.
  assert (Hr : in_range scenario_reference) by concrete_range.
  split; [exact Hr |].
  exact (proj1 (stays_outside_window_are_ignored scenario_reference
                  [stay_inside; stay_before; stay_straddling]
                  scenario_reference Hr)).
Defined.

(** X4: for a reference date Python can represent, the counter raises
    exactly when that date is earlier than 0002-01-01: the window start
    would fall before 0001-01-01, the first date there is.  The exception
    is [OverflowError], and the list of stays plays no part in it. *)
Theorem counter_raises_exactly_in_year_one
    (today : date) (trips : list trip) (reference_date : date) :
  valid_date reference_date ->
  (raises (days_in_rolling_window today trips (Some reference_date))
   <-> date_lt reference_date (ymd 2 1 1) = true)
  /\ (forall e,
         days_in_rolling_window today trips (Some reference_date) = Raise e ->
         e = OverflowError)
  /\ (date_lt reference_date (ymd 2 1 1) = false ->
      exists days_used,
        days_in_rolling_window today trips (Some reference_date)
        = Ok (days_used, spec_window_start reference_date)).
Proof.
  intros [Hlo Hhi]. unfold date_lt.
  change (toordinal (ymd 2 1 1)) with 366.
  destruct (Z.ltb_spec (toordinal reference_date) 366) as [Hy|Hy].
  - rewrite (counter_overflow today trips reference_date) by lia.
    split; [split; [reflexivity | intros _; eexists; reflexivity]|].
    split; [intros e He; congruence | discriminate].
  - assert (Hr : in_range reference_date) by (unfold in_range; lia).
    rewrite (counter_spec _ _ _ Hr).
    split; [split; [intros [e He]; discriminate He | discriminate]|].
    split; [intros e He; discriminate He | eauto].
Qed.

Lemma counter_raises_exactly_in_year_one_witness :
  valid_date (ymd 1 6 15)
  /\ raises (days_in_rolling_window (ymd 1 6 15) [stay_inside]
               (Some (ymd 1 6 15))).
Proof.
  assert (Hv : valid_date (ymd 1 6 15)) by (vm_compute; split; discriminate).
  split; [exact Hv |].
  destruct (counter_raises_exactly_in_year_one (ymd 1 6 15) [stay_inside]
              (ymd 1 6 15) Hv) as [[_ Hraises] _].
  apply Hraises. vm_compute. reflexivity.
Defined.

(** ** The timeline *)

Lemma fold_min_date (rest : list date) (first : date) :
  let lowest := fold_left min_date rest first in
  In lowest (first :: rest)
  /\ forall d, In d (first :: rest) -> toordinal lowest <= toordinal d.
Proof.
  revert first. induction rest as [|x rest IH]; intros first; cbn zeta.
  - cbn. split; [left; reflexivity|]. intros d [<-|[]]. lia.
  - cbn [fold_left]. destruct (IH (min_date first x)) as [Hin Hle].
    pose proof (min_date_ordinal first x) as Hm. split.
    + destruct Hin as [Heq|Hin]; [|right; right; exact Hin].
      rewrite <- Heq. unfold min_date.
      destruct (date_lt x first); [right; left|left]; reflexivity.
    + intros d [<-|[<-|Hd]].
      * specialize (Hle _ (or_introl eq_refl)). lia.
      * specialize (Hle _ (or_introl eq_refl)). lia.
      * apply Hle. right. exact Hd.
Qed.

Lemma fold_max_date (rest : list date) (first : date) :
  let highest := fold_left max_date rest first in
  In highest (first :: rest)
  /\ forall d, In d (first :: rest) -> toordinal d <= toordinal highest.
Proof.
  revert first. induction rest as [|x rest IH]; intros first; cbn zeta.
  - cbn. split; [left; reflexivity|]. intros d [<-|[]]. lia.
  - cbn [fold_left]. destruct (IH (max_date first x)) as [Hin Hle].
    pose proof (max_date_ordinal first x) as Hm. split.
    + destruct Hin as [Heq|Hin]; [|right; right; exact Hin].
      rewrite <- Heq. unfold max_date.
      destruct (date_gt x first); [right; left|left]; reflexivity.
    + intros d [<-|[<-|Hd]].
      * specialize (Hle _ (or_introl eq_refl)). lia.
      * specialize (Hle _ (or_introl eq_refl)). lia.
      * apply Hle. right. exact Hd.
Qed.

Lemma min_of_spec (dates : list date) :
  dates <> [] ->
  exists lowest,
    min_of dates = Ok lowest /\ In lowest dates
    /\ forall d, In d dates -> toordinal lowest <= toordinal d.
Proof.
  destruct dates as [|first rest]; [congruence|]. intros _.
  exists (fold_left min_date rest first).
  split; [reflexivity | apply fold_min_date].
Qed.

Lemma max_of_spec (dates : list date) :
  dates <> [] ->
  exists highest,
    max_of dates = Ok highest /\ In highest dates
    /\ forall d, In d dates -> toordinal d <= toordinal highest.
Proof.
  destruct dates as [|first rest]; [congruence|]. intros _.
  exists (fold_left max_date rest first).
  split; [reflexivity | apply fold_max_date].
Qed.

Lemma all_dates_in (trips : list trip) (t : trip) :
  In t trips -> In (entry_of t) (all_dates trips)
                /\ In (exit_of t) (all_dates trips).
Proof.
  intros Hin. unfold all_dates, entry_of, exit_of.
  split; apply in_or_app; [left | right]; apply in_map, Hin.
Qed.

(** X5: with no stay at all the counter still answers (0 days used), but
    [create_visualization] raises [ValueError] when it takes the minimum
    of the empty list of dates. *)
Theorem empty_trip_list_breaks_the_timeline
    (today : date) (reference_date : option date) :
  in_range (effective_reference today reference_date) ->
  days_in_rolling_window today [] reference_date
  = Ok (0, spec_window_start (effective_reference today reference_date))
  /\ create_visualization_extent today [] reference_date = Raise ValueError.
Proof.
  intros Hr. split.
  - rewrite counter_effective, (counter_spec _ _ _ Hr). reflexivity.
  - unfold create_visualization_extent.
    fold (effective_reference today reference_date).
    rewrite (counter_spec _ _ _ Hr). reflexivity.
Qed.

Lemma empty_trip_list_breaks_the_timeline_witness :
  in_range (effective_reference scenario_reference None)
  /\ days_in_rolling_window scenario_reference [] None
     = Ok (0, spec_window_start (effective_reference scenario_reference None))
  /\ create_visualization_extent scenario_reference [] None
     = Raise ValueError.
Proof.
  assert (Hr : in_range (effective_reference scenario_reference None))
    by concrete_range.
  split; [exact Hr |].
  exact (empty_trip_list_breaks_the_timeline scenario_reference None Hr).
Defined.

(** X6: for a non-empty list the timeline runs from the earliest to the
    latest of all entry dates, exit dates and the two ends of the window:
    it contains the window and every stay, its end points are dates of
    the input, and it spans at least 365 days, so that the tick interval
    [max(1, date_range // 10)] is [date_range // 10], at least 36. *)
Theorem timeline_contains_window_and_stays
    (today : date) (trips : list trip) (reference_date : date) :
  in_range reference_date ->
  trips <> [] ->
  exists summary earliest_date latest_date date_range,
    create_visualization_extent today trips (Some reference_date)
    = Ok (summary, (earliest_date, latest_date, date_range))
    /\ create_visualization_summary today trips (Some reference_date)
       = Ok summary
    /\ In earliest_date (spec_window_start reference_date :: all_dates trips)
    /\ In latest_date (reference_date :: all_dates trips)
    /\ toordinal earliest_date <= toordinal (spec_window_start reference_date)
    /\ toordinal reference_date <= toordinal latest_date
    /\ (forall t, In t trips ->
          toordinal earliest_date <= toordinal (entry_of t)
            <= toordinal latest_date
          /\ toordinal earliest_date <= toordinal (exit_of t)
             <= toordinal latest_date)
    /\ date_range = toordinal latest_date - toordinal earliest_date
    /\ 365 <= date_range
    /\ tick_interval date_range = date_range / 10
    /\ 36 <= tick_interval date_range.
Proof.
  intros Hr Hne.
  assert (Hdates : all_dates trips <> []).
  { destruct trips as [|t trips]; [congruence | discriminate]. }
  destruct (min_of_spec _ Hdates) as [lowest [Hmin [Hlin Hlle]]].
  destruct (max_of_spec _ Hdates) as [highest [Hmax [Hhin Hhle]]].
  unfold create_visualization_extent, create_visualization_summary.
  rewrite (counter_spec _ _ _ Hr). cbn [bind].
  rewrite Hmin, Hmax. cbn [bind].
  pose proof (min_date_ordinal lowest (spec_window_start reference_date))
    as Hlo.
  pose proof (max_date_ordinal highest reference_date) as Hhi.
  assert (Hws : toordinal (spec_window_start reference_date)
                = toordinal reference_date - 365) by reflexivity.
  set (earliest := min_date lowest (spec_window_start reference_date)) in *.
  set (latest := max_date highest reference_date) in *.
  assert (Hrange : 365 <= toordinal latest - toordinal earliest) by lia.
  do 4 eexists. split; [reflexivity|]. split; [reflexivity|].
  split; [|split; [|split; [lia|split; [lia|split; [|split;
    [reflexivity|split; [exact Hrange|]]]]]]].
  - unfold earliest, min_date.
    destruct (date_lt _ _); [left; reflexivity | right; exact Hlin].
  - unfold latest, max_date.
    destruct (date_gt _ _); [left; reflexivity | right; exact Hhin].
  - intros t Ht. destruct (all_dates_in trips t Ht) as [He Hx].
    pose proof (Hlle _ He). pose proof (Hlle _ Hx).
    pose proof (Hhle _ He). pose proof (Hhle _ Hx). lia.
  - cbn [days date_diff]. unfold tick_interval.
    assert (Htenth : 36 <= (toordinal latest - toordinal earliest) / 10).
    { apply Z.div_le_lower_bound; lia. }
    destruct (Z.ltb_spec 1 ((toordinal latest - toordinal earliest) / 10));
      lia.
Qed.

Lemma timeline_contains_window_and_stays_witness :
  in_range scenario_reference
  /\ [stay_before; stay_inside] <> []
  /\ exists summary earliest_date latest_date date_range,
       create_visualization_extent scenario_reference
         [stay_before; stay_inside] (Some scenario_reference)
       = Ok (summary, (earliest_date, latest_date, date_range))
       /\ 365 <= date_range
       /\ 36 <= tick_interval date_range.
Proof.
  assert (Hr : in_range scenario_reference) by concrete_range.
  assert (Hne : [stay_before; stay_inside] <> []) by discriminate.
  split; [exact Hr | split; [exact Hne |]].
  destruct (timeline_contains_window_and_stays scenario_reference
              [stay_before; stay_inside] scenario_reference Hr Hne)
    as [summary [earliest_date [latest_date [date_range
         [Hrun [_ [_ [_ [_ [_ [_ [_ [Hspan [_ Htick]]]]]]]]]]]]]].
  exists summary, earliest_date, latest_date, date_range.
  split; [exact Hrun | split; [exact Hspan | exact Htick]].
Defined.

Lemma mid_date_ordinal (t : trip) :
  toordinal (entry_of t) + trip_duration t / 2
  = (toordinal (entry_of t) + toordinal (exit_of t) + 1) / 2.
Proof.
  rewrite trip_duration_ordinals.
  replace (toordinal (entry_of t) + toordinal (exit_of t) + 1)
    with ((toordinal (exit_of t) - toordinal (entry_of t) + 1)
          + toordinal (entry_of t) * 2) by lia.
  rewrite Z.div_add by lia. lia.
Qed.

(** X7: for a stay between two representable dates the label anchor
    [entry + timedelta(days=trip_duration // 2)] never leaves the range of
    dates: it is the date half-way between entry and exit, rounded up,
    so it lies within the stay (also when entry and exit are reversed). *)
Theorem mid_date_lies_within_the_stay (t : trip) :
  valid_trip t ->
  exists middle,
    mid_date t = Ok middle
    /\ valid_date middle
    /\ toordinal middle
       = (toordinal (entry_of t) + toordinal (exit_of t) + 1) / 2
    /\ Z.min (toordinal (entry_of t)) (toordinal (exit_of t))
       <= toordinal middle
       <= Z.max (toordinal (entry_of t)) (toordinal (exit_of t)).
Proof.
  intros [[He1 He2] [Hx1 Hx2]].
  pose proof (mid_date_ordinal t) as Hmid.
  assert (Hbetween :
            Z.min (toordinal (entry_of t)) (toordinal (exit_of t))
            <= (toordinal (entry_of t) + toordinal (exit_of t) + 1) / 2
            <= Z.max (toordinal (entry_of t)) (toordinal (exit_of t))).
  { split.
    - apply Z.div_le_lower_bound; lia.
    - apply Z.lt_succ_r, Z.div_lt_upper_bound; lia. }
  destruct t as [entry exit_date]. unfold entry_of, exit_of in *.
  cbn [fst snd] in *. unfold mid_date, date_add_timedelta. cbn [days].
  rewrite Hmid.
  destruct (Z.ltb_spec 0 ((toordinal entry + toordinal exit_date + 1) / 2));
    [|lia].
  destruct (Z.leb_spec ((toordinal entry + toordinal exit_date + 1) / 2)
              MAXORDINAL); [|lia].
  cbn [andb]. eexists. split; [reflexivity|].
  unfold valid_date. cbn [toordinal]. repeat split; lia.
Qed.

Lemma mid_date_lies_within_the_stay_witness :
  valid_trip stay_reversed
  /\ exists middle,
       mid_date stay_reversed = Ok middle
       /\ valid_date middle
       /\ toordinal middle
          = (toordinal (entry_of stay_reversed)
             + toordinal (exit_of stay_reversed) + 1) / 2
       /\ Z.min (toordinal (entry_of stay_reversed))
             (toordinal (exit_of stay_reversed))
          <= toordinal middle
          <= Z.max (toordinal (entry_of stay_reversed))
               (toordinal (exit_of stay_reversed)).
Proof.
  assert (Hv : valid_trip stay_reversed)
    by (split; vm_compute; split; discriminate).
  split; [exact Hv |].
  exact (mid_date_lies_within_the_stay stay_reversed Hv).
Defined.

(** ** The calendar *)

Lemma days_before_year_succ (year : Z) :
  days_before_year (year + 1)
  = days_before_year year + 365 + (if is_leap year then 1 else 0).
Proof.
  unfold days_before_year, is_leap. cbn zeta.
  replace (year + 1 - 1) with (year - 1 + 1) by lia.
  destruct (Z.eqb_spec (year mod 4) 0);
    destruct (Z.eqb_spec (year mod 100) 0);
    destruct (Z.eqb_spec (year mod 400) 0);
    cbn [andb orb negb]; Z.div_mod_to_equations; lia.
Qed.

Lemma days_before_year_mono (y1 y2 : Z) :
  y1 <= y2 -> days_before_year y1 <= days_before_year y2.
Proof.
  unfold days_before_year. cbn zeta. intros H.
  Z.div_mod_to_equations. lia.
Qed.

Lemma day_of_year_bounds (year month day : Z) :
  1 <= month <= 12 -> 1 <= day <= days_in_month year month ->
  1 <= days_before_month year month + day
    <= 365 + (if is_leap year then 1 else 0).
Proof.
  intros Hm Hd.
  assert (Hcases : month = 1 \/ month = 2 \/ month = 3 \/ month = 4
                   \/ month = 5 \/ month = 6 \/ month = 7 \/ month = 8
                   \/ month = 9 \/ month = 10 \/ month = 11 \/ month = 12)
    by lia.
  revert Hd. unfold days_before_month, days_in_month.
  destruct (is_leap year);
    repeat (destruct Hcases as [->|Hcases]; [vm_compute (index _ _);
      vm_compute (_ =? _); vm_compute (_ <? _); cbn [andb]; lia|]);
    subst; vm_compute (index _ _); vm_compute (_ =? _);
    vm_compute (_ <? _); cbn [andb]; lia.
Qed.

Lemma check_date_fields_bounds (year month day : Z) :
  check_date_fields year month day = true ->
  1 <= year <= 9999 /\ 1 <= month <= 12
  /\ 1 <= day <= days_in_month year month.
Proof.
  unfold check_date_fields, MINYEAR, MAXYEAR. intros H.
  repeat (apply andb_true_iff in H; destruct H as [H ?]).
  repeat match goal with
         | Hle : (_ <=? _) = true |- _ => apply Z.leb_le in Hle
         end.
  lia.
Qed.

(** A date built from fields that pass the constructor's check has an
    ordinal in [1 .. _MAXORDINAL]. *)
Lemma ymd_valid (year month day : Z) :
  check_date_fields year month day = true -> valid_date (ymd year month day).
Proof.
  intros H. apply check_date_fields_bounds in H. destruct H as [Hy [Hm Hd]].
  pose proof (day_of_year_bounds year month day Hm Hd) as Hdoy.
  pose proof (days_before_year_succ year) as Hsucc.
  pose proof (days_before_year_mono 1 year (proj1 Hy)) as Hlo.
  pose proof (days_before_year_mono (year + 1) 10000 ltac:(lia)) as Hhi.
  change (days_before_year 1) with 0 in Hlo.
  change (days_before_year 10000) with 3652059 in Hhi.
  unfold valid_date, ymd, ymd2ord, MAXORDINAL. cbn [toordinal]. lia.
Qed.

(** ** Parsing dates *)

Lemma digit_char_cases (n : Z) :
  Strptime.is_digit (Strptime.digit_char n) = true
  /\ Ascii.eqb (Strptime.digit_char n) (Ascii.ascii_of_N 32) = false
  /\ Strptime.code (Strptime.digit_char n) - 48 = n mod 10.
Proof.
  unfold Strptime.digit_char.
  pose proof (Z.mod_pos_bound n 10 ltac:(lia)) as Hr.
  set (r := n mod 10) in *.
  assert (Hcases : r = 0 \/ r = 1 \/ r = 2 \/ r = 3 \/ r = 4 \/ r = 5
                   \/ r = 6 \/ r = 7 \/ r = 8 \/ r = 9) by lia.
  clearbody r.
  repeat (destruct Hcases as [->|Hcases];
          [vm_compute; repeat split; reflexivity|]).
  subst. vm_compute. repeat split; reflexivity.
Qed.

Lemma substring_prefix (p rest : String.string) :
  String.substring 0 (String.length p) (String.append p rest) = p.
Proof.
  induction p as [|a p IH]; cbn.
  - destruct rest; reflexivity.
  - rewrite IH. reflexivity.
Qed.

Lemma string_length_append (p rest : String.string) :
  String.length (String.append p rest)
  = (String.length p + String.length rest)%nat.
Proof. induction p as [|a p IH]; cbn; [reflexivity | rewrite IH; reflexivity]. Qed.

Lemma consumed_prefix (p rest : String.string) :
  Strptime.consumed (String.append p rest) rest = p.
Proof.
  unfold Strptime.consumed. rewrite string_length_append.
  replace (String.length p + String.length rest - String.length rest)%nat
    with (String.length p) by lia.
  apply substring_prefix.
Qed.

(** The year group takes the four digits and nothing else. *)
Lemma year_group_matches {R : Type} (year : Z) (rest : String.string)
    (caps : Strptime.captures)
    (k : String.string -> Strptime.captures -> option R) :
  Strptime.run Strptime.directive_Y
    (String.append (Strptime.four_digits year) rest) caps k
  = k rest ((Ascii.ascii_of_N 89, Strptime.four_digits year) :: caps).
Proof.
  unfold Strptime.directive_Y.
  cbn [Strptime.run Strptime.four_digits String.append].
  rewrite !(proj1 (digit_char_cases _)).
  change (String.String (Strptime.digit_char (year / 1000))
            (String.String (Strptime.digit_char (year / 100))
               (String.String (Strptime.digit_char (year / 10))
                  (String.String (Strptime.digit_char year) rest))))
    with (String.append (Strptime.four_digits year) rest).
  rewrite consumed_prefix. reflexivity.
Qed.

Lemma int_four_digits (year : Z) :
  0 <= year <= 9999 -> Strptime.int (Strptime.four_digits year) = year.
Proof.
  intros Hy. unfold Strptime.int, Strptime.four_digits.
  rewrite (proj1 (proj2 (digit_char_cases _))).
  cbn [Strptime.int_digits].
  change (Strptime.code (Ascii.ascii_of_N 48)) with 48.
  rewrite !(proj2 (proj2 (digit_char_cases _))).
  Z.div_mod_to_equations. lia.
Qed.

(** The month and the day, written with two digits each, are matched by
    the first alternative that fits, and converted back to themselves. *)
Lemma month_day_matches (month day : nat) (caps : Strptime.captures) :
  (Nat.leb 1 month && Nat.leb month 12 = true) ->
  (Nat.leb 1 day && Nat.leb day 31 = true) ->
  Strptime.run Strptime.month_day_regex
    (Strptime.month_day_text (Z.of_nat month) (Z.of_nat day)) caps
    (fun rest found => Some (rest, found))
  = Some (String.EmptyString,
          (Ascii.ascii_of_N 100, Strptime.two_digits (Z.of_nat day))
            :: (Ascii.ascii_of_N 109, Strptime.two_digits (Z.of_nat month))
            :: caps)
  /\ Strptime.int (Strptime.two_digits (Z.of_nat month)) = Z.of_nat month
  /\ Strptime.int (Strptime.two_digits (Z.of_nat day)) = Z.of_nat day.
Proof.
  intros Hm Hd.
  destruct month as [|month]; [discriminate Hm|].
  do 12 (destruct month as [|month];
    [clear Hm; destruct day as [|day]; [discriminate Hd|];
     do 31 (destruct day as [|day];
       [clear Hd; vm_compute;
        split; [reflexivity | split; reflexivity]|]);
     discriminate Hd|]).
  discriminate Hm.
Qed.

Lemma days_in_month_le_31 (year month : Z) :
  1 <= month <= 12 -> days_in_month year month <= 31.
Proof.
  intros Hm.
  assert (Hcases : month = 1 \/ month = 2 \/ month = 3 \/ month = 4
                   \/ month = 5 \/ month = 6 \/ month = 7 \/ month = 8
                   \/ month = 9 \/ month = 10 \/ month = 11 \/ month = 12)
    by lia.
  unfold days_in_month.
  destruct (is_leap year);
    repeat (destruct Hcases as [->|Hcases]; [vm_compute; discriminate|]);
    subst; vm_compute; discriminate.
Qed.

Lemma strptime_isoformat (year month day : Z) :
  check_date_fields year month day = true ->
  Strptime.strptime (Strptime.isoformat year month day)
  = Ok (ymd year month day).
Proof.
  intros Hcheck.
  destruct (check_date_fields_bounds _ _ _ Hcheck) as [Hy [Hm Hd]].
  pose proof (days_in_month_le_31 year month Hm) as H31.
  assert (Hmb : Nat.leb 1 (Z.to_nat month) && Nat.leb (Z.to_nat month) 12
                = true).
  { apply andb_true_iff; split; apply Nat.leb_le; lia. }
  assert (Hdb : Nat.leb 1 (Z.to_nat day) && Nat.leb (Z.to_nat day) 31
                = true).
  { apply andb_true_iff; split; apply Nat.leb_le; lia. }
  destruct (month_day_matches (Z.to_nat month) (Z.to_nat day)
              [(Ascii.ascii_of_N 89, Strptime.four_digits year)] Hmb Hdb)
    as [Hrun [Hmi Hdi]].
  assert (Em : Z.of_nat (Z.to_nat month) = month) by lia.
  assert (Ed : Z.of_nat (Z.to_nat day) = day) by lia.
  rewrite Em, Ed in Hrun. rewrite Em in Hmi. rewrite Ed in Hdi.
  unfold Strptime.strptime, Strptime.regex_match, Strptime.format_regex,
    Strptime.isoformat.
  cbn [Strptime.run]. rewrite year_group_matches, Hrun.
  change (date_new (Strptime.int (Strptime.four_digits year))
            (Strptime.int (Strptime.two_digits month))
            (Strptime.int (Strptime.two_digits day))
          = Ok (ymd year month day)).
  rewrite Hmi, Hdi, (int_four_digits year) by lia.
  unfold date_new. rewrite Hcheck. reflexivity.
Qed.

(** ** Loading the rows *)

Lemma strptime_only_value_error (text : String.string) (e : exn) :
  Strptime.strptime text = Raise e -> e = ValueError.
Proof.
  unfold Strptime.strptime, date_new.
  destruct (Strptime.regex_match _ _) as [[rest found]|]; [|congruence].
  destruct rest; [|congruence].
  destruct (check_date_fields _ _ _); congruence.
Qed.

Lemma strptime_valid (text : String.string) (d : date) :
  Strptime.strptime text = Ok d -> valid_date d.
Proof.
  unfold Strptime.strptime, date_new.
  destruct (Strptime.regex_match _ _) as [[rest found]|]; [|discriminate].
  destruct rest; [|discriminate].
  destruct (check_date_fields _ _ _) eqn:Hcheck; [|discriminate].
  intros H. injection H as <-. exact (ymd_valid _ _ _ Hcheck).
Qed.

Lemma load_row_spec (r : row) (t : trip) :
  load_row r = Loaded t <-> row_holds r t.
Proof.
  unfold load_row, read_date, row_holds. split.
  - destruct (getitem r column_entry) as [[entry_text|]|]; try discriminate.
    destruct (Strptime.strptime entry_text) as [entry|] eqn:He;
      try discriminate.
    destruct (getitem r column_exit) as [[exit_text|]|]; try discriminate.
    destruct (Strptime.strptime exit_text) as [exit_date|] eqn:Hx;
      try discriminate.
    intros H. injection H as <-. exists entry_text, exit_text.
    repeat split; assumption.
  - intros [entry_text [exit_text [-> [-> [-> ->]]]]].
    destruct t; reflexivity.
Qed.

Lemma load_loop_loaded (rows : list row) (acc trips : list trip) :
  load_loop rows acc = Loaded trips
  <-> exists new, trips = acc ++ new /\ Forall2 row_holds rows new.
Proof.
  revert acc trips. induction rows as [|r rows IH]; intros acc trips; cbn.
  - split.
    + intros H. injection H as <-. exists []. rewrite app_nil_r.
      split; [reflexivity | constructor].
    + intros [new [-> Hall]]. inversion Hall. rewrite app_nil_r. reflexivity.
  - destruct (load_row r) as [t|e] eqn:Hrow.
    + rewrite IH. split.
      * intros [new [-> Hall]]. exists (t :: new).
        rewrite <- app_assoc. split; [reflexivity|].
        constructor; [apply load_row_spec, Hrow | exact Hall].
      * intros [new [-> Hall]].
        inversion Hall as [|? t' ? new' Hhd Htl]; subst.
        apply load_row_spec in Hhd. rewrite Hrow in Hhd.
        injection Hhd as <-. exists new'. rewrite <- app_assoc.
        split; [reflexivity | exact Htl].
    + split; [discriminate|].
      intros [new [_ Hall]]. inversion Hall as [|? t' ? new' Hhd Htl]; subst.
      apply load_row_spec in Hhd. congruence.
Qed.

Lemma load_trips_keeps_rows_in_order_aux (rows : list row)
    (trips : list trip) :
  load_trips rows = Loaded trips <-> Forall2 row_holds rows trips.
Proof.
  unfold load_trips. rewrite load_loop_loaded. cbn [app]. split.
  - intros [new [-> Hall]]. exact Hall.
  - intros Hall. exists trips. split; [reflexivity | exact Hall].
Qed.

(** X8: [load_trips] returns a list exactly when every row has both
    columns holding texts that parse as dates; the list then has one
    stay per row, in the order of the rows, made of the two dates of
    that row. *)
Theorem load_trips_keeps_rows_in_order (rows : list row) (trips : list trip) :
  (load_trips rows = Loaded trips <-> Forall2 row_holds rows trips)
  /\ (load_trips rows = Loaded trips -> length trips = length rows).
Proof.
  split; [exact (load_trips_keeps_rows_in_order_aux rows trips)|].
  intros H. apply load_trips_keeps_rows_in_order_aux in H.
  symmetry. exact (Forall2_length H).
Qed.

Lemma load_trips_keeps_rows_in_order_witness :
  load_trips [row_of ((2023, 6, 1), (2023, 6, 30));
              row_of ((2023, 5, 10), (2023, 5, 1))]
  = Loaded [stay_inside; stay_reversed]
  /\ length [stay_inside; stay_reversed]
     = length [row_of ((2023, 6, 1), (2023, 6, 30));
               row_of ((2023, 5, 10), (2023, 5, 1))].
Proof.
  assert (Hload : load_trips [row_of ((2023, 6, 1), (2023, 6, 30));
                              row_of ((2023, 5, 10), (2023, 5, 1))]
                  = Loaded [stay_inside; stay_reversed])
    by (vm_compute; reflexivity).
  split; [exact Hload |].
  exact (proj2 (load_trips_keeps_rows_in_order _ _) Hload).
Defined.

Lemma load_loop_failed (rows : list row) (acc : list trip) (e : load_exn) :
  load_loop rows acc = Failed e
  <-> exists good bad rest read,
        rows = good ++ bad :: rest
        /\ Forall2 row_holds good read
        /\ load_row bad = Failed e.
Proof.
  revert acc. induction rows as [|r rows IH]; intros acc; cbn.
  - split; [discriminate|].
    intros [good [bad [rest [read [Heq _]]]]].
    destruct good; discriminate Heq.
  - destruct (load_row r) as [t|e'] eqn:Hrow.
    + rewrite IH. split.
      * intros [good [bad [rest [read [-> [Hall Hbad]]]]]].
        exists (r :: good), bad, rest, (t :: read).
        split; [reflexivity|]. split; [|exact Hbad].
        constructor; [apply load_row_spec, Hrow | exact Hall].
      * intros [good [bad [rest [read [Heq [Hall Hbad]]]]]].
        destruct good as [|g good].
        -- cbn in Heq. injection Heq as -> ->. congruence.
        -- cbn in Heq. injection Heq as -> ->.
           inversion Hall as [|? t' ? read' Hhd Htl]; subst.
           exists good, bad, rest, read'. repeat split; assumption.
    + split.
      * intros H. injection H as ->. exists [], r, rows, [].
        split; [reflexivity|]. split; [constructor | exact Hrow].
      * intros [good [bad [rest [read [Heq [Hall Hbad]]]]]].
        destruct good as [|g good].
        -- cbn in Heq. injection Heq as -> ->. congruence.
        -- cbn in Heq. injection Heq as -> ->.
           inversion Hall as [|? t' ? read' Hhd Htl]; subst.
           apply load_row_spec in Hhd. congruence.
Qed.

Lemma getitem_failure (r : row) (key : String.string) (e : load_exn) :
  getitem r key = Failed e -> e = KeyError key.
Proof.
  induction r as [|[k cell] r IH]; cbn.
  - congruence.
  - destruct (String.eqb k key); [discriminate | exact IH].
Qed.

Lemma read_date_failure (r : row) (key : String.string) (e : load_exn) :
  read_date r key = Failed e ->
  e = KeyError key \/ e = TypeError \/ e = Builtin ValueError.
Proof.
  unfold read_date.
  destruct (getitem r key) as [[text|]|e'] eqn:Hget.
  - destruct (Strptime.strptime text) as [d|e'] eqn:Hparse; [discriminate|].
    intros H. injection H as <-.
    rewrite (strptime_only_value_error _ _ Hparse). tauto.
  - intros H. injection H as <-. tauto.
  - intros H. injection H as <-.
    left. exact (getitem_failure _ _ _ Hget).
Qed.

(** X9: [load_trips] fails exactly when some row fails, with the
    exception of the first such row, whatever the rows after it hold;
    the exception is [KeyError] for a missing column, [TypeError] for a
    missing cell, or [ValueError] for a text that is not a date. *)
Theorem load_trips_stops_at_first_bad_row (rows : list row) (e : load_exn) :
  (load_trips rows = Failed e
   <-> exists good bad rest read,
         rows = good ++ bad :: rest
         /\ load_trips good = Loaded read
         /\ load_row bad = Failed e)
  /\ (load_trips rows = Failed e ->
      e = KeyError column_entry \/ e = KeyError column_exit
      \/ e = TypeError \/ e = Builtin ValueError).
Proof.
  assert (Hiff : load_trips rows = Failed e
                 <-> exists good bad rest read,
                       rows = good ++ bad :: rest
                       /\ load_trips good = Loaded read
                       /\ load_row bad = Failed e).
  { unfold load_trips at 1. rewrite load_loop_failed.
    split; intros [good [bad [rest [read [Heq [Hall Hbad]]]]]];
      exists good, bad, rest, read; (split; [exact Heq|]);
      (split; [|exact Hbad]);
      apply load_trips_keeps_rows_in_order_aux; exact Hall. }
  split; [exact Hiff|].
  intros Hfail. apply Hiff in Hfail.
  destruct Hfail as [good [bad [rest [read [_ [_ Hbad]]]]]].
  unfold load_row in Hbad.
  destruct (read_date bad column_entry) as [entry|e1] eqn:He.
  - destruct (read_date bad column_exit) as [exit_date|e2] eqn:Hx;
      [discriminate|].
    injection Hbad as <-. destruct (read_date_failure _ _ _ Hx) as [H|[H|H]];
      tauto.
  - injection Hbad as <-. destruct (read_date_failure _ _ _ He) as [H|[H|H]];
      tauto.
Qed.

Lemma load_trips_stops_at_first_bad_row_witness :
  load_trips [row_of ((2023, 6, 1), (2023, 6, 30));
              [(column_entry, Some (Strptime.isoformat 2023 7 1))];
              row_of ((2023, 8, 1), (2023, 8, 2))]
  = Failed (KeyError column_exit)
  /\ (KeyError column_exit = KeyError column_entry
      \/ KeyError column_exit = KeyError column_exit
      \/ KeyError column_exit = TypeError
      \/ KeyError column_exit = Builtin ValueError).
Proof.
  assert (Hfail : load_trips
                    [row_of ((2023, 6, 1), (2023, 6, 30));
                     [(column_entry, Some (Strptime.isoformat 2023 7 1))];
                     row_of ((2023, 8, 1), (2023, 8, 2))]
                  = Failed (KeyError column_exit))
    by (vm_compute; reflexivity).
  split; [exact Hfail |].
  exact (proj2 (load_trips_stops_at_first_bad_row _ _) Hfail).
Defined.

Lemma load_row_of (w : written_stay) :
  stay_ok w -> load_row (row_of w) = Loaded (trip_of w).
Proof.
  destruct w as [[[ey em] ed] [[xy xm] xd]]. intros [He Hx].
  cbn [fst snd fields_ok] in He, Hx.
  unfold load_row, read_date, row_of, iso_row, trip_of, date_of_fields.
  cbn [fst snd].
  change (getitem [(column_entry, Some (Strptime.isoformat ey em ed));
                   (column_exit, Some (Strptime.isoformat xy xm xd))]
            column_entry)
    with (Loaded (Some (Strptime.isoformat ey em ed))).
  change (getitem [(column_entry, Some (Strptime.isoformat ey em ed));
                   (column_exit, Some (Strptime.isoformat xy xm xd))]
            column_exit)
    with (Loaded (Some (Strptime.isoformat xy xm xd))).
  cbv beta iota. rewrite (strptime_isoformat _ _ _ He).
  cbv beta iota. rewrite (strptime_isoformat _ _ _ Hx).
  reflexivity.
Qed.

Lemma load_loop_row_of (stays : list written_stay) (acc : list trip) :
  Forall stay_ok stays ->
  load_loop (map row_of stays) acc = Loaded (acc ++ map trip_of stays).
Proof.
  intros Hall. revert acc.
  induction Hall as [|w stays Hw _ IH]; intros acc; cbn [map load_loop].
  - rewrite app_nil_r. reflexivity.
  - rewrite (load_row_of w Hw), IH, <- app_assoc. reflexivity.
Qed.

(** X10: stays written in the file as ISO dates ([YYYY-MM-DD], fields
    that make a date) are read back as exactly those stays, in order.
    Nothing is checked beyond the two dates: a row whose exit precedes
    its entry is loaded like any other. *)
Theorem load_trips_reads_back_iso_dates (stays : list written_stay) :
  Forall stay_ok stays ->
  load_trips (map row_of stays) = Loaded (map trip_of stays)
  /\ Forall valid_trip (map trip_of stays).
Proof.
  intros Hall. split.
  - unfold load_trips. rewrite (load_loop_row_of stays [] Hall). reflexivity.
  - apply Forall_map. revert Hall. apply Forall_impl.
    intros [[[ey em] ed] [[xy xm] xd]] [He Hx].
    split; apply ymd_valid; assumption.
Qed.

Lemma load_trips_reads_back_iso_dates_witness :
  Forall stay_ok [((2023, 6, 1), (2023, 6, 30));
                  ((2023, 5, 10), (2023, 5, 1))]
  /\ load_trips (map row_of [((2023, 6, 1), (2023, 6, 30));
                             ((2023, 5, 10), (2023, 5, 1))])
     = Loaded (map trip_of [((2023, 6, 1), (2023, 6, 30));
                            ((2023, 5, 10), (2023, 5, 1))])
  /\ reversed (trip_of ((2023, 5, 10), (2023, 5, 1))).
Proof.
  assert (Hok : Forall stay_ok [((2023, 6, 1), (2023, 6, 30));
                                ((2023, 5, 10), (2023, 5, 1))])
    by (repeat constructor).
  split; [exact Hok | split].
  - exact (proj1 (load_trips_reads_back_iso_dates _ Hok)).
  - vm_compute. reflexivity.
Defined.

(** X11: every date that [load_trips] returns is one Python can
    represent (0001-01-01 .. 9999-12-31), whatever the texts were. *)
Theorem loaded_trips_hold_valid_dates (rows : list row) (trips : list trip) :
  load_trips rows = Loaded trips -> Forall valid_trip trips.
Proof.
  intros H. apply load_trips_keeps_rows_in_order_aux in H.
  induction H as [|r t rows trips Hrow _ IH]; constructor; [|exact IH].
  destruct Hrow as [entry_text [exit_text [_ [_ [He Hx]]]]].
  split; eapply strptime_valid; eassumption.
Qed.

Lemma loaded_trips_hold_valid_dates_witness :
  load_trips [row_of ((1, 1, 1), (9999, 12, 31))]
  = Loaded [(ymd 1 1 1, ymd 9999 12 31)]
  /\ Forall valid_trip [(ymd 1 1 1, ymd 9999 12 31)].
Proof.
  assert (Hload : load_trips [row_of ((1, 1, 1), (9999, 12, 31))]
                  = Loaded [(ymd 1 1 1, ymd 9999 12 31)])
    by (vm_compute; reflexivity).
  split; [exact Hload |].
  exact (loaded_trips_hold_valid_dates _ _ Hload).
Defined.

(** X12: on a file with a header and no data row the program first
    reports 0 days used and 180 remaining, and then fails with
    [ValueError] while it lays out the timeline. *)
Theorem program_fails_on_a_file_without_rows (today today_again : date) :
  in_range today ->
  in_range today_again ->
  load_trips [] = Loaded []
  /\ main today [] = Ok (Report 0 180 (spec_window_start today))
  /\ program today today_again [] = Failed (Builtin ValueError).
Proof.
  intros Hr Hr'. split; [reflexivity|]. 
  assert (Hmain : main today [] = Ok (Report 0 180 (spec_window_start today))).
  { unfold main. rewrite counter_default, (counter_spec _ _ _ Hr).
    reflexivity. }
  split; [exact Hmain|].
  unfold program. cbn [load_trips load_loop]. rewrite Hmain.
  unfold create_visualization_extent.
  rewrite (counter_spec _ _ _ Hr'). reflexivity.
Qed.

Lemma program_fails_on_a_file_without_rows_witness :
  in_range scenario_reference
  /\ in_range (ymd 2024 1 2)
  /\ program scenario_reference (ymd 2024 1 2) []
     = Failed (Builtin ValueError).
Proof.
  assert (Hr : in_range scenario_reference) by concrete_range.
  assert (Hr' : in_range (ymd 2024 1 2)) by concrete_range.
  split; [exact Hr | split; [exact Hr' |]].
  exact (proj2 (proj2 (program_fails_on_a_file_without_rows
                         scenario_reference (ymd 2024 1 2) Hr Hr'))).
Defined.

(** ** Dates and their fields *)

Lemma days_before_month_table (year : Z) :
  let leap := if is_leap year then 1 else 0 in
  days_before_month year 1 = 0
  /\ days_before_month year 2 = 31
  /\ days_before_month year 3 = 59 + leap
  /\ days_before_month year 4 = 90 + leap
  /\ days_before_month year 5 = 120 + leap
  /\ days_before_month year 6 = 151 + leap
  /\ days_before_month year 7 = 181 + leap
  /\ days_before_month year 8 = 212 + leap
  /\ days_before_month year 9 = 243 + leap
  /\ days_before_month year 10 = 273 + leap
  /\ days_before_month year 11 = 304 + leap
  /\ days_before_month year 12 = 334 + leap.
Proof.
  unfold days_before_month. destruct (is_leap year);
    repeat split; reflexivity.
Qed.

Lemma days_in_month_table (year : Z) :
  let leap := if is_leap year then 1 else 0 in
  days_in_month year 1 = 31
  /\ days_in_month year 2 = 28 + leap
  /\ days_in_month year 3 = 31
  /\ days_in_month year 4 = 30
  /\ days_in_month year 5 = 31
  /\ days_in_month year 6 = 30
  /\ days_in_month year 7 = 31
  /\ days_in_month year 8 = 31
  /\ days_in_month year 9 = 30
  /\ days_in_month year 10 = 31
  /\ days_in_month year 11 = 30
  /\ days_in_month year 12 = 31.
Proof.
  unfold days_in_month. destruct (is_leap year);
    repeat split; reflexivity.
Qed.

Lemma month_cases (month : Z) :
  1 <= month <= 12 ->
  month = 1 \/ month = 2 \/ month = 3 \/ month = 4 \/ month = 5
  \/ month = 6 \/ month = 7 \/ month = 8 \/ month = 9 \/ month = 10
  \/ month = 11 \/ month = 12.
Proof. lia. Qed.

(** Within a year, an earlier month ends before a later one begins. *)
Lemma earlier_month (year m1 d1 m2 : Z) :
  1 <= m1 -> m1 < m2 -> m2 <= 12 -> d1 <= days_in_month year m1 ->
  days_before_month year m1 + d1 <= days_before_month year m2.
Proof.
  intros H1 Hlt H2 Hd.
  pose proof (days_before_month_table year) as Hb.
  pose proof (days_in_month_table year) as Hi. cbn zeta in Hb, Hi.
  destruct Hb as (B1 & B2 & B3 & B4 & B5 & B6 & B7 & B8 & B9 & B10
                  & B11 & B12).
  destruct Hi as (I1 & I2 & I3 & I4 & I5 & I6 & I7 & I8 & I9 & I10
                  & I11 & I12).
  assert (Hleap : 0 <= (if is_leap year then 1 else 0) <= 1)
    by (destruct (is_leap year); lia).
  destruct (month_cases m1 ltac:(lia)) as
    [->|[->|[->|[->|[->|[->|[->|[->|[->|[->|[->| ->]]]]]]]]]]];
    destruct (month_cases m2 ltac:(lia)) as
      [->|[->|[->|[->|[->|[->|[->|[->|[->|[->|[->| ->]]]]]]]]]]];
    lia.
Qed.

(** [ymd2ord] grows with the fields taken as a tuple. *)
Lemma ymd2ord_increasing (a b : Z * Z * Z) :
  fields_ok a = true -> fields_ok b = true -> fields_lt a b = true ->
  toordinal (date_of_fields a) < toordinal (date_of_fields b).
Proof.
  destruct a as [[y1 m1] d1], b as [[y2 m2] d2].
  unfold fields_ok, fields_lt, date_of_fields, ymd, ymd2ord.
  cbn [toordinal]. intros Ha Hb Hlt.
  apply check_date_fields_bounds in Ha, Hb.
  destruct Ha as [Hy1 [Hm1 Hd1]], Hb as [Hy2 [Hm2 Hd2]].
  pose proof (day_of_year_bounds y1 m1 d1 Hm1 Hd1) as Hdoy1.
  pose proof (day_of_year_bounds y2 m2 d2 Hm2 Hd2) as Hdoy2.
  destruct (Z.ltb_spec y1 y2) as [Hy|Hy]; cbn [orb] in Hlt.
  - pose proof (days_before_year_succ y1) as Hsucc.
    pose proof (days_before_year_mono (y1 + 1) y2 ltac:(lia)). lia.
  - destruct (Z.eqb_spec y1 y2) as [->|Hne]; [|discriminate].
    cbn [andb] in Hlt.
    destruct (Z.ltb_spec m1 m2) as [Hm|Hm]; cbn [orb] in Hlt.
    + pose proof (earlier_month y2 m1 d1 m2 ltac:(lia) Hm ltac:(lia)
                    ltac:(lia)). lia.
    + destruct (Z.eqb_spec m1 m2) as [->|Hne]; [|discriminate].
      cbn [andb] in Hlt. apply Z.ltb_lt in Hlt. lia.
Qed.

Lemma fields_trichotomy (a b : Z * Z * Z) :
  fields_lt a b = true \/ a = b \/ fields_lt b a = true.
Proof.
  destruct a as [[y1 m1] d1], b as [[y2 m2] d2]. unfold fields_lt.
  destruct (Z.lt_trichotomy y1 y2) as [H|[->|H]].
  - left. apply Z.ltb_lt in H. rewrite H. reflexivity.
  - rewrite Z.ltb_irrefl, Z.eqb_refl. cbn [orb andb].
    destruct (Z.lt_trichotomy m1 m2) as [H|[->|H]].
    + left. apply Z.ltb_lt in H. rewrite H. reflexivity.
    + rewrite Z.ltb_irrefl, Z.eqb_refl. cbn [orb andb].
      destruct (Z.lt_trichotomy d1 d2) as [H|[->|H]].
      * left. apply Z.ltb_lt, H.
      * right. left. reflexivity.
      * right. right. apply Z.ltb_lt, H.
    + right. right. apply Z.ltb_lt in H. rewrite H. reflexivity.
  - right. right. apply Z.ltb_lt in H. rewrite H. reflexivity.
Qed.

(** X13: dates built from valid fields compare by their ordinals exactly
    as Python compares them, by (year, month, day); two of them are the
    same date only when their fields are the same.  So counting with
    ordinals orders the dates of the file as the calendar does. *)
Theorem dates_compare_as_their_fields (a b : Z * Z * Z) :
  fields_ok a = true ->
  fields_ok b = true ->
  date_lt (date_of_fields a) (date_of_fields b) = fields_lt a b
  /\ date_gt (date_of_fields a) (date_of_fields b) = fields_lt b a
  /\ (date_of_fields a = date_of_fields b <-> a = b).
Proof.
  intros Ha Hb. unfold date_lt, date_gt.
  destruct (fields_trichotomy a b) as [Hlt|[->|Hgt]].
  - pose proof (ymd2ord_increasing a b Ha Hb Hlt) as Hord.
    rewrite Hlt.
    destruct (fields_lt b a) eqn:Hba.
    + pose proof (ymd2ord_increasing b a Hb Ha Hba). lia.
    + repeat split.
      * apply Z.ltb_lt, Hord.
      * apply Z.ltb_ge. lia.
      * intros Heq. rewrite Heq in Hord. lia.
      * intros ->. lia.
  - assert (Hirr : fields_lt b b = false).
    { destruct (fields_lt b b) eqn:Hbb; [|reflexivity].
      pose proof (ymd2ord_increasing b b Hb Hb Hbb). lia. }
    rewrite Hirr, Z.ltb_irrefl. repeat split; reflexivity.
  - pose proof (ymd2ord_increasing b a Hb Ha Hgt) as Hord.
    rewrite Hgt.
    destruct (fields_lt a b) eqn:Hab.
    + pose proof (ymd2ord_increasing a b Ha Hb Hab). lia.
    + repeat split.
      * apply Z.ltb_ge. lia.
      * apply Z.ltb_lt, Hord.
      * intros Heq. rewrite Heq in Hord. lia.
      * intros ->. lia.
Qed.

Lemma dates_compare_as_their_fields_witness :
  fields_ok (2024, 2, 29) = true
  /\ fields_ok (2024, 3, 1) = true
  /\ date_lt (date_of_fields (2024, 2, 29)) (date_of_fields (2024, 3, 1))
     = fields_lt (2024, 2, 29) (2024, 3, 1).
Proof.
  assert (Ha : fields_ok (2024, 2, 29) = true) by reflexivity.
  assert (Hb : fields_ok (2024, 3, 1) = true) by reflexivity.
  split; [exact Ha | split; [exact Hb |]].
  exact (proj1 (dates_compare_as_their_fields _ _ Ha Hb)).
Defined.

(** ** The window from one day to the next *)

Lemma contribution_next_day (ref next : date) (t : trip) :
  toordinal next = toordinal ref + 1 ->
  well_formed t ->
  spec_contribution (spec_window_start next) next t
  = spec_contribution (spec_window_start ref) ref t
    + (if covers t (toordinal next) then 1 else 0)
    - (if covers t (toordinal (spec_window_start ref)) then 1 else 0).
Proof.
  intros Hnext Hwf. unfold well_formed in Hwf.
  unfold spec_contribution, covers, spec_window_start. cbn [toordinal].
  rewrite Hnext.
  destruct (Z.ltb_spec (toordinal (exit_of t)) (toordinal ref + 1 - 365));
    destruct (Z.ltb_spec (toordinal ref + 1) (toordinal (entry_of t)));
    destruct (Z.ltb_spec (toordinal (exit_of t)) (toordinal ref - 365));
    destruct (Z.ltb_spec (toordinal ref) (toordinal (entry_of t)));
    destruct (Z.leb_spec (toordinal (entry_of t)) (toordinal ref + 1));
    destruct (Z.leb_spec (toordinal ref + 1) (toordinal (exit_of t)));
    destruct (Z.leb_spec (toordinal (entry_of t)) (toordinal ref - 365));
    destruct (Z.leb_spec (toordinal ref - 365) (toordinal (exit_of t)));
    cbn [orb andb]; lia.
Qed.

(** X14: from one reference date to the next the count changes by the
    number of stays that include the new day minus the number of stays
    that include the day leaving the window (stays being well
    formed). *)
Theorem days_used_from_one_day_to_the_next
    (today : date) (trips : list trip) (reference_date next_day : date) :
  in_range reference_date ->
  in_range next_day ->
  toordinal next_day = toordinal reference_date + 1 ->
  Forall well_formed trips ->
  exists before after,
    days_in_rolling_window today trips (Some reference_date)
    = Ok (before, spec_window_start reference_date)
    /\ days_in_rolling_window today trips (Some next_day)
       = Ok (after, spec_window_start next_day)
    /\ after
       = before + coverage trips (toordinal next_day)
         - coverage trips (toordinal (spec_window_start reference_date)).
Proof.
  intros Hr Hn Hnext Hwf. rewrite !(counter_spec _ _ _) by assumption.
  eexists; eexists. split; [reflexivity | split; [reflexivity|]].
  unfold spec_days_used.
  induction Hwf as [|t trips Ht _ IH].
  - reflexivity.
  - cbn [map sum_Z fold_right]. rewrite !coverage_cons.
    fold (sum_Z (map (spec_contribution (spec_window_start next_day)
                        next_day) trips)).
    fold (sum_Z (map (spec_contribution (spec_window_start reference_date)
                        reference_date) trips)).
    rewrite IH, (contribution_next_day reference_date next_day t Hnext Ht).
    lia.
Qed.

Lemma days_used_from_one_day_to_the_next_witness :
  in_range (ymd 2023 12 31)
  /\ in_range scenario_reference
  /\ toordinal scenario_reference = toordinal (ymd 2023 12 31) + 1
  /\ Forall well_formed [stay_inside; stay_straddling]
  /\ exists before after,
       days_in_rolling_window scenario_reference
         [stay_inside; stay_straddling] (Some (ymd 2023 12 31))
       = Ok (before, spec_window_start (ymd 2023 12 31))
       /\ days_in_rolling_window scenario_reference
            [stay_inside; stay_straddling] (Some scenario_reference)
          = Ok (after, spec_window_start scenario_reference)
       /\ after
          = before
            + coverage [stay_inside; stay_straddling]
                (toordinal scenario_reference)
            - coverage [stay_inside; stay_straddling]
                (toordinal (spec_window_start (ymd 2023 12 31))).
Proof.
  assert (Hr : in_range (ymd 2023 12 31)) by concrete_range.
  assert (Hn : in_range scenario_reference) by concrete_range.
  assert (Hnext : toordinal scenario_reference
                  = toordinal (ymd 2023 12 31) + 1) by reflexivity.
  assert (Hw : Forall well_formed [stay_inside; stay_straddling])
    by (repeat constructor; concrete_le).
  split; [exact Hr | split; [exact Hn | split; [exact Hnext |
    split; [exact Hw |]]]].
  exact (days_used_from_one_day_to_the_next scenario_reference _ _ _
           Hr Hn Hnext Hw).
Defined.

(** X15: for well-formed stays [main] never reports more than 180 days
    remaining, and what it reports as used and as remaining always adds
    up to 180; when moreover no two stays share a day it never reports
    fewer than -186, the window holding 366 days. *)
Theorem days_remaining_range (today : date) (trips : list trip) :
  in_range today ->
  Forall well_formed trips ->
  exists printed,
    main today trips = Ok printed
    /\ report_days_used printed + report_days_remaining printed = 180
    /\ report_days_remaining printed <= 180
    /\ (ForallOrdPairs non_overlapping trips ->
        -186 <= report_days_remaining printed).
Proof.
  intros Hr Hwf. unfold main.
  rewrite counter_default, (counter_spec _ _ _ Hr). cbn [bind].
  eexists. split; [reflexivity|].
  cbn [report_days_used report_days_remaining]. unfold MAX_DAYS.
  assert (Hnonneg : 0 <= spec_days_used trips today).
  { unfold spec_days_used. apply sum_Z_nonneg, Forall_map.
    revert Hwf. apply Forall_impl. intros t Ht.
    apply spec_contribution_nonneg; [|exact Ht].
    unfold spec_window_start; simpl; lia. }
  split; [lia | split; [lia|]].
  intros Hsep.
  pose proof (proj2 (spec_days_used_present trips today Hwf Hsep)). lia.
Qed.

Lemma days_remaining_range_witness :
  in_range scenario_reference
  /\ Forall well_formed [stay_inside; stay_straddling]
  /\ exists printed,
       main scenario_reference [stay_inside; stay_straddling] = Ok printed
       /\ report_days_used printed + report_days_remaining printed = 180
       /\ report_days_remaining printed <= 180
       /\ (ForallOrdPairs non_overlapping [stay_inside; stay_straddling] ->
           -186 <= report_days_remaining printed).
Proof.
  assert (Hr : in_range scenario_reference) by concrete_range.
  assert (Hw : Forall well_formed [stay_inside; stay_straddling])
    by (repeat constructor; concrete_le).
  split; [exact Hr | split; [exact Hw |]].
  exact (days_remaining_range scenario_reference _ Hr Hw).
Defined.
